(** * Financial scam detector: signal extraction and risk fusion

    A shallow embedding of the Python back end
    ([backend/detectors/risk_scorer.py], [backend/utils/domain_checker.py],
    [backend/detectors/email_phishing_detector.py],
    [backend/detectors/url_phishing_detector.py]) and the properties its
    specification states about it.

    Conventions of the embedding.
    - Python [float]s are exact rationals ([Q]); decimal literals of the
      source are the same decimal literals here, arithmetic is exact and
      equality of numbers is [Qeq].
    - Python [str]s are [string]s of 8-bit characters; case folding and the
      character classes act on the ASCII range.
    - A Python [dict] with string keys is a [gmap string _]; the [weights]
      table, which the source iterates, is an association list in insertion
      order.
    - An exception is a value [Raise e] of the [result] monad, sequenced
      with [let! x := m in k].
    - What the code calls outside this repository ([whois.whois],
      [datetime.now], [urllib.parse.urlparse], [numpy.log2], the optional
      ML models) is a [Variable] of the section that embeds the caller. *)

From Stdlib Require Import QArith Qminmax Lqa String Ascii List ZArith Lia.
From stdpp Require Import gmap strings list fin_maps.

Open Scope string_scope.

(** ** Python values, exceptions *)

Module Py.

Inductive exn : Type :=
| TypeError
| KeyError (key : string)
| ValueError
| IndexError
| ZeroDivisionError
| UnboundLocalError
| LookupFailure.

Inductive result (A : Type) : Type :=
| Ok (a : A)
| Raise (e : exn).
Arguments Ok {A} a.
Arguments Raise {A} e.

Definition bind {A B} (m : result A) (k : A -> result B) : result B :=
  match m with
  | Ok a => k a
  | Raise e => Raise e
  end.

(** [Optional[float]]: the values a signal dictionary holds. *)
Inductive optfloat : Type :=
| PyNone
| PyFloat (q : Q).

Definition is_not_None (v : optfloat) : bool :=
  match v with
  | PyNone => false
  | PyFloat _ => true
  end.

(** [a > b] and [a >= b] on floats. *)
Definition Qgtb (a b : Q) : bool := negb (Qle_bool a b).
Definition Qgeb (a b : Q) : bool := Qle_bool b a.

(** [min(a, b)]: Python returns the first argument unless the second is
    strictly smaller. *)
Definition py_min (a b : Q) : Q := if Qgtb a b then b else a.

(** [v > c] where [v] may be [None]: comparing [None] with a float is a
    [TypeError] in Python 3. *)
Definition gt_float (v : optfloat) (c : Q) : result bool :=
  match v with
  | PyFloat q => Ok (Qgtb q c)
  | PyNone => Raise TypeError
  end.

(** [d.get(key)]: the value under [key], [None] when the key is missing. *)
Definition dict_get (d : gmap string optfloat) (key : string) : optfloat :=
  match d !! key with
  | Some v => v
  | None => PyNone
  end.

(** [d.get(key, default)]: the default only replaces a missing key; a key
    that is present with value [None] yields [None]. *)
Definition dict_get_default (d : gmap string optfloat) (key : string)
           (default : Q) : optfloat :=
  match d !! key with
  | Some v => v
  | None => PyFloat default
  end.

(** [l.append(x)] *)
Definition append {A} (l : list A) (x : A) : list A := (l ++ [x])%list.

(** [d.values()] *)
Definition dict_values (d : gmap string optfloat) : list optfloat :=
  (map_to_list d).*2.

End Py.

Import Py.

Notation "'let!' x ':=' m 'in' k" := (bind m (fun x => k))
  (at level 10, x pattern, m at level 100, k at level 200).

(** ** [detectors/risk_scorer.py] *)

Module RiskScorer.

(** [self.weights], in insertion order. *)
Definition weights : list (string * Q) :=
  [ ("websiteTrust", 0.25%Q);
    ("urlPhishing", 0.20%Q);
    ("financialIntent", 0.30%Q);
    ("otpMisuse", 0.15%Q);
    ("upiScam", 0.10%Q) ].

Record verdict : Type := mk_verdict {
  risk_score : Q;
  risk_level : string;
  explanation : string;
  confidence : Q
}.

(** Lines 60-64: the normalized value of a signal, [1.0 - value] for
    [websiteTrust] and the value itself for the others. *)
Definition normalized_value (signal_name : string) (signal_value : Q) : Q :=
  if String.eqb signal_name "websiteTrust"
  then (1.0 - signal_value)%Q
  else signal_value.

(** One iteration of [for signal_name, weight in self.weights.items()];
    the state is [(total_score, total_weight)]. *)
Definition accumulate (signals : gmap string optfloat)
           (acc : Q * Q) (item : string * Q) : Q * Q :=
  let '(total_score, total_weight) := acc in
  let '(signal_name, weight) := item in
  match dict_get signals signal_name with
  | PyFloat signal_value =>
      let normalized := normalized_value signal_name signal_value in
      ((total_score + normalized * weight)%Q, (total_weight + weight)%Q)
  | PyNone => acc
  end.

Definition weighted_totals (w : list (string * Q))
           (signals : gmap string optfloat) : Q * Q :=
  fold_left (accumulate signals) w (0.0%Q, 0.0%Q).

(** Lines 69-71: [total_score / total_weight] behind its guard; the
    initial [risk_score] is [0.0]. *)
Definition average (totals : Q * Q) : Q :=
  let '(total_score, total_weight) := totals in
  if Qgtb total_weight 0 then (total_score / total_weight)%Q else 0.0%Q.

(** Lines 52-77: the weighted average over the signals that are not
    [None], then the financial-intent multiplier. *)
Definition fused_score (w : list (string * Q))
           (signals : gmap string optfloat) : result Q :=
  let score0 := average (weighted_totals w signals) in
  let! amplify := gt_float (dict_get_default signals "financialIntent" 0) 0.5%Q in
  Ok (if amplify then py_min (score0 * 1.3)%Q 1.0%Q else score0).

Definition _generate_explanation (risk_level : string)
           (signals : gmap string optfloat) : result string :=
  if String.eqb risk_level "high" then
    let explanation := "⚠️ HIGH RISK - DO NOT PROCEED. " in
    let! upi := gt_float (dict_get_default signals "upiScam" 0) 0.7%Q in
    let! detail :=
      (if upi then Ok "This appears to be a UPI scam. "
       else
         let! otp := gt_float (dict_get_default signals "otpMisuse" 0) 0.7%Q in
         if otp
         then Ok "This site is asking for sensitive information but is not trustworthy. "
         else
           let! url := gt_float (dict_get_default signals "urlPhishing" 0) 0.7%Q in
           if url then Ok "The URL shows strong phishing indicators. "
           else Ok "") in
    Ok (explanation ++ detail ++ "We strongly recommend leaving this website.")
  else if String.eqb risk_level "medium" then
    let explanation := "⚠️ CAUTION ADVISED. " in
    let! fin := gt_float (dict_get_default signals "financialIntent" 0) 0.5%Q in
    let detail := if fin then "This page involves financial activity. " else "" in
    Ok (explanation ++ detail ++ "Verify the website authenticity before proceeding.")
  else Raise UnboundLocalError.

(** [sum(1 for v in signals.values() if v is not None)] *)
Definition available_signals (signals : gmap string optfloat) : nat :=
  length (filter (fun v => is_not_None v = true) (dict_values signals)).

(** [a / b] on two ints (true division). *)
Definition int_truediv (a b : nat) : result Q :=
  match b with
  | O => Raise ZeroDivisionError
  | S _ => Ok (inject_Z (Z.of_nat a) / inject_Z (Z.of_nat b))%Q
  end.

(** [calculate], for a scorer whose [self.weights] is [w]. *)
Definition calculate_with (w : list (string * Q))
           (signals : gmap string optfloat) : result verdict :=
  let! score := fused_score w signals in
  let! (level, expl) :=
    (if Qgeb score 0.7%Q then
       let! e := _generate_explanation "high" signals in Ok ("high", e)
     else if Qgeb score 0.4%Q then
       let! e := _generate_explanation "medium" signals in Ok ("medium", e)
     else Ok ("low", "This page appears safe based on our analysis.")) in
  let! conf := int_truediv (available_signals signals) (length w) in
  Ok (mk_verdict score level expl conf).

Definition calculate : gmap string optfloat -> result verdict :=
  calculate_with weights.

(** The dictionary [app.py] builds from a [RiskScoreRequest]: all five keys,
    [None] for the fields the request left out. *)
Definition request_signals (websiteTrust urlPhishing financialIntent
                            otpMisuse upiScam : optfloat)
  : gmap string optfloat :=
  <["websiteTrust" := websiteTrust]>
  (<["urlPhishing" := urlPhishing]>
  (<["financialIntent" := financialIntent]>
  (<["otpMisuse" := otpMisuse]>
  (<["upiScam" := upiScam]> ∅)))).


(** The five signal names. *)
Definition signal_names : list string := map fst weights.

(** Every float of the bundle lies in [[0,1]]. *)
Definition unit_valued (signals : gmap string optfloat) : Prop :=
  forall k q, signals !! k = Some (PyFloat q) -> (0 <= q <= 1)%Q.

(** [None], or a float of [[0,1]]. *)
Definition unit_optfloat (v : optfloat) : Prop :=
  match v with
  | PyNone => True
  | PyFloat q => (0 <= q <= 1)%Q
  end.

(** A signal bundle: keys among the five names, each holding [None] or a
    float of [[0,1]]. *)
Definition signal_bundle (signals : gmap string optfloat) : Prop :=
  dom signals ⊆ list_to_set signal_names /\ unit_valued signals.

Definition nonneg_weights (w : list (string * Q)) : Prop :=
  Forall (fun item => (0 <= snd item)%Q) w.

(** The entries of the whole mapping whose value is not [None]. *)
Definition not_None_entries (signals : gmap string optfloat)
  : gmap string optfloat :=
  filter (fun kv : string * optfloat => is_not_None kv.2 = true) signals.

End RiskScorer.

(** ** Operations of [str] *)

Module Str.

Definition is_upper (c : ascii) : bool :=
  let n := nat_of_ascii c in (65 <=? n)%nat && (n <=? 90)%nat.
Definition is_lower (c : ascii) : bool :=
  let n := nat_of_ascii c in (97 <=? n)%nat && (n <=? 122)%nat.
Definition is_digit (c : ascii) : bool :=
  let n := nat_of_ascii c in (48 <=? n)%nat && (n <=? 57)%nat.
Definition is_alpha (c : ascii) : bool := is_upper c || is_lower c.
Definition is_alnum (c : ascii) : bool := is_alpha c || is_digit c.
(** [c.isspace()] on the ASCII range. *)
Definition is_space (c : ascii) : bool :=
  let n := nat_of_ascii c in
  ((9 <=? n)%nat && (n <=? 13)%nat) || ((28 <=? n)%nat && (n <=? 32)%nat).

Definition lower_char (c : ascii) : ascii :=
  if is_upper c then ascii_of_nat (nat_of_ascii c + 32) else c.
Definition upper_char (c : ascii) : ascii :=
  if is_lower c then ascii_of_nat (nat_of_ascii c - 32) else c.

Fixpoint map_chars (f : ascii -> ascii) (s : string) : string :=
  match s with
  | EmptyString => EmptyString
  | String c s' => String (f c) (map_chars f s')
  end.

(** [s.lower()], [s.upper()] *)
Definition lower : string -> string := map_chars lower_char.
Definition upper : string -> string := map_chars upper_char.

(** [sub in s] *)
Fixpoint contains (sub s : string) : bool :=
  if String.prefix sub s then true
  else match s with
       | EmptyString => false
       | String _ s' => contains sub s'
       end.

(** [s.count(c)] for a one-character [c] *)
Fixpoint count (c : ascii) (s : string) : Z :=
  match s with
  | EmptyString => 0
  | String c' s' => (if Ascii.eqb c c' then 1 else 0) + count c s'
  end.

(** [len(s)] *)
Definition len (s : string) : Z := Z.of_nat (String.length s).

(** [s.split(c)] for a one-character separator: never empty. *)
Fixpoint split (c : ascii) (s : string) : list string :=
  match s with
  | EmptyString => [EmptyString]
  | String c' s' =>
      if Ascii.eqb c c' then EmptyString :: split c s'
      else match split c s' with
           | piece :: rest => String c' piece :: rest
           | [] => [String c' EmptyString]
           end
  end.

(** [s.replace(old, new)] for a non-empty [old]: the occurrences are
    replaced from the left and do not overlap; [skip] counts the characters
    of an occurrence still to be dropped. *)
Fixpoint replace_from (old new : string) (skip : nat) (s : string) : string :=
  match s with
  | EmptyString => EmptyString
  | String c s' =>
      match skip with
      | S k => replace_from old new k s'
      | O =>
          if String.prefix old s
          then new ++ replace_from old new (String.length old - 1) s'
          else String c (replace_from old new O s')
      end
  end.
Definition replace (old new s : string) : string := replace_from old new O s.

Fixpoint lstrip (s : string) : string :=
  match s with
  | EmptyString => EmptyString
  | String c s' => if is_space c then lstrip s' else s
  end.
Fixpoint rstrip (s : string) : string :=
  match s with
  | EmptyString => EmptyString
  | String c s' =>
      match rstrip s' with
      | EmptyString => if is_space c then EmptyString else String c EmptyString
      | t => String c t
      end
  end.
(** [s.strip()] *)
Definition strip (s : string) : string := rstrip (lstrip s).

(** [sep.join(l)] *)
Definition join (sep : string) (l : list string) : string := String.concat sep l.

(** [s[:n]] *)
Definition take (n : nat) (s : string) : string := String.substring 0 n s.

(** [str(n)] for an int *)
Fixpoint digits (fuel : nat) (n : Z) (acc : string) : string :=
  match fuel with
  | O => acc
  | S fuel' =>
      let acc' := String (ascii_of_nat (48 + Z.to_nat (n mod 10))) acc in
      if (n <? 10)%Z then acc' else digits fuel' (n / 10) acc'
  end.
Definition of_int (n : Z) : string :=
  if (n <? 0)%Z then "-" ++ digits (S (Z.to_nat (Z.log2 (- n)))) (- n) ""
  else digits (S (Z.to_nat (Z.log2 n))) n "".

End Str.

(** ** [utils/domain_checker.py] *)

Module DomainChecker.

(** What [w.creation_date] can hold: [None], a [datetime] (microseconds on
    the naive time line), or a string the WHOIS library could not parse. *)
Inductive date_value : Type :=
| DateNone
| Datetime (t : Z)
| DateStr (s : string).

(** The field is one such value or a list of them. *)
Inductive creation_field : Type :=
| Single (d : date_value)
| Several (l : list date_value).

(** The object [whois.whois] returns; [registrar_attr] is [None] when the
    object has no attribute [registrar], and [Some v] when
    [w.registrar] is [v]. *)
Record whois_entry : Type := mk_whois {
  creation_date : creation_field;
  registrar_attr : option (option string)
}.

Record age_result : Type := mk_age {
  age_days : Z;
  is_new : bool;
  registration_date : option string;
  registrar : option string
}.

Definition new_domain_threshold_days : Z := 90.

Definition microseconds_per_day : Z := 86400 * 1000000.

(** [(a - b).days]: a [timedelta] is normalised with the remainder
    non-negative, so the day count is the floor. *)
Definition timedelta_days (a b : Z) : Z := (a - b) / microseconds_per_day.

(** [bool(creation_date)] *)
Definition truthy (d : date_value) : bool :=
  match d with
  | DateNone => false
  | Datetime _ => true
  | DateStr s => negb (String.eqb s "")
  end.

(** [creation_date = w.creation_date], then [creation_date[0]] when it is
    a list. *)
Definition first_creation (w : whois_entry) : result date_value :=
  match creation_date w with
  | Several l =>
      match l with
      | d :: _ => Ok d
      | [] => Raise IndexError
      end
  | Single d => Ok d
  end.

(** The dictionary [check_age] starts from. *)
Definition default_result : age_result := mk_age (-1) false None None.

Definition _clean_domain (domain : string) : string :=
  let domain := Str.replace "https://" "" (Str.replace "http://" "" domain) in
  let domain := Str.replace "www." "" domain in
  let domain :=
    if Str.contains "/" domain then hd "" (Str.split "/" domain) else domain in
  let domain :=
    if Str.contains ":" domain then hd "" (Str.split ":" domain) else domain in
  Str.strip domain.

Section CheckAge.

(** The collaborators: the WHOIS query, the clock and
    [datetime.isoformat]. *)
Variable whois : string -> result whois_entry.
Variable now : Z.
Variable isoformat : Z -> string.

(** The body of the [try]: the [result] dictionary as the statements left
    it, and the exception that ended them, if any. *)
Definition try_body (domain : string) (result0 : age_result)
  : age_result * option exn :=
  let clean_domain := _clean_domain domain in
  match whois clean_domain with
  | Raise e => (result0, Some e)
  | Ok w =>
      match first_creation w with
      | Raise e => (result0, Some e)
      | Ok creation =>
          if truthy creation then
            match creation with
            | Datetime t =>
                let days := timedelta_days now t in
                let r := mk_age days (is_new result0)
                                (registration_date result0) (registrar result0) in
                let r := mk_age (age_days r) (is_new r)
                                (Some (isoformat t)) (registrar r) in
                let r := mk_age (age_days r)
                                (days <? new_domain_threshold_days)%Z
                                (registration_date r) (registrar r) in
                let r :=
                  match registrar_attr w with
                  | Some v => mk_age (age_days r) (is_new r)
                                     (registration_date r) v
                  | None => r
                  end in
                (r, None)
            | _ => (result0, Some TypeError)
            end
          else (result0, None)
      end
  end.

Definition check_age (domain : string) : age_result :=
  match try_body domain default_result with
  | (r, None) => r
  | (r, Some _) =>
      mk_age (-1) false (registration_date r) (registrar r)
  end.

End CheckAge.

End DomainChecker.

(** ** The fragment of [re] the detectors use *)

Module Re.

(** Pattern syntax: literal characters, [\d], concatenation, [|], and the
    greedy [?] and [+]. *)
Inductive regex : Type :=
| Eps
| Chr (c : ascii)
| Digit
| Seq (r1 r2 : regex)
| Alt (r1 r2 : regex)
| Opt (r : regex)
| Plus (r : regex).

(** A literal run of characters. *)
Fixpoint Lit (s : string) : regex :=
  match s with
  | EmptyString => Eps
  | String c EmptyString => Chr c
  | String c s' => Seq (Chr c) (Lit s')
  end.

(** [r{1,3}] *)
Definition Rep13 (r : regex) : regex := Seq r (Opt (Seq r (Opt r))).

Definition or_else {A} (a b : option A) : option A :=
  match a with
  | Some x => Some x
  | None => b
  end.

(** Backtracking matcher in continuation style: [matches ic r s k] tries
    the ways [r] can match a prefix of [s] in the order Python's engine
    tries them (left alternative first, greedy repetition first) and
    returns the first for which the continuation [k] accepts the rest.
    [ic] is [re.IGNORECASE]. *)
Fixpoint matches (ic : bool) (r : regex) (s : string)
         (k : string -> option string) {struct r} : option string :=
  match r with
  | Eps => k s
  | Chr c =>
      match s with
      | String c' s' =>
          if (if ic then Ascii.eqb (Str.lower_char c) (Str.lower_char c')
              else Ascii.eqb c c')
          then k s' else None
      | EmptyString => None
      end
  | Digit =>
      match s with
      | String c' s' => if Str.is_digit c' then k s' else None
      | EmptyString => None
      end
  | Seq r1 r2 => matches ic r1 s (fun s' => matches ic r2 s' k)
  | Alt r1 r2 => or_else (matches ic r1 s k) (matches ic r2 s k)
  | Opt r1 => or_else (matches ic r1 s k) (k s)
  | Plus r1 =>
      (fix iterate (fuel : nat) (s : string) : option string :=
         match fuel with
         | O => None
         | S fuel' =>
             matches ic r1 s (fun s' => or_else (iterate fuel' s') (k s'))
         end) (S (String.length s)) s
  end.

(** [re.search(r, s)]: the leftmost start at which [r] matches; the result
    is [match.group(0)]. *)
Fixpoint search (ic : bool) (r : regex) (s : string) : option string :=
  match matches ic r s Some with
  | Some rest =>
      Some (String.substring 0 (String.length s - String.length rest) s)
  | None =>
      match s with
      | EmptyString => None
      | String _ s' => search ic r s'
      end
  end.

End Re.

(** ** [detectors/email_phishing_detector.py] *)

Module EmailPhishingDetector.
Import Re.

Local Infix "·" := Seq (at level 40, left associativity).
Local Infix "|||" := Alt (at level 50, left associativity).

Definition urgency_patterns : list regex :=
  [ Lit "urgent" · Opt (Lit "ly");
    Lit "immediate" · Opt (Lit "ly");
    Lit "act now";
    Lit "within " · Plus Digit · Lit " hour" · Opt (Chr "s");
    Lit "expire" · Opt (Chr "s") · Chr " " · (Lit "today" ||| Lit "soon" ||| Lit "now");
    Lit "limited time";
    Lit "account " · Opt (Lit "will be " ||| Lit "has been ")
      · (Lit "suspended" ||| Lit "closed" ||| Lit "blocked");
    Lit "verify " · (Lit "immediately" ||| Lit "now" ||| Lit "your account");
    Lit "action required";
    Lit "security alert";
    Lit "unusual activity" ].

Definition fear_patterns : list regex :=
  [ Lit "blocked";
    Lit "frozen";
    Lit "compromised";
    Lit "unauthorized";
    Lit "suspicious activity";
    Lit "fraud" · Opt (Lit "ulent") · Chr " " · (Lit "activity" ||| Lit "transaction");
    Lit "legal action";
    Lit "lose access";
    Lit "permanent" · Opt (Lit "ly");
    Lit "cancel" · Opt (Lit "led" ||| Lit "lation") ].

Definition reward_patterns : list regex :=
  [ Lit "won";
    Lit "winner";
    Lit "prize";
    Lit "reward";
    Lit "cash" · Opt (Chr " ") · Lit "back";
    Lit "free";
    Lit "claim " · (Lit "now" ||| Lit "your");
    Lit "congratulations";
    Lit "you" · (Lit "'ve" ||| Lit " have") · Lit " been selected";
    Lit "lottery";
    Lit "bonus";
    Lit "gift card" ].

Definition bank_keywords : list string :=
  [ "bank"; "banking"; "account"; "netbanking"; "internet banking";
    "upi"; "paytm"; "phonepe"; "gpay"; "google pay";
    "transaction"; "payment"; "otp"; "cvv"; "debit"; "credit" ].

Record pattern_matches_t : Type := mk_matches {
  urgency : list string;
  fear : list string;
  reward : list string;
  financial : list string
}.

Record detection : Type := mk_detection {
  phishing_score : Q;
  is_phishing : bool;
  reasons : list string;
  pattern_matches : pattern_matches_t
}.

Record mismatch_t : Type := mk_mismatch {
  claimed : string;
  actual : string;
  expected : string
}.

Definition _find_patterns (text : string) (patterns : list regex) : list string :=
  flat_map (fun pattern =>
              match search true pattern text with
              | Some m => [m]
              | None => []
              end) patterns.

Definition banks : list (string * list string) :=
  [ ("sbi", ["sbi.co.in"]);
    ("hdfc", ["hdfcbank.com"]);
    ("icici", ["icicibank.com"]);
    ("axis", ["axisbank.com"]);
    ("paytm", ["paytm.com"]);
    ("phonepe", ["phonepe.com"]) ].

Fixpoint first_mismatch (text sender_domain : string)
         (l : list (string * list string)) : option mismatch_t :=
  match l with
  | [] => None
  | (bank_name, valid_domains) :: rest =>
      if Str.contains bank_name text
         && negb (existsb (fun valid => Str.contains valid sender_domain)
                          valid_domains)
      then Some (mk_mismatch (Str.upper bank_name) sender_domain
                             (hd "" valid_domains))
      else first_mismatch text sender_domain rest
  end.

Definition _check_sender_domain_mismatch (text sender_domain : string)
  : option mismatch_t :=
  first_mismatch text sender_domain banks.

Section Analyze.

(** [self.classifier]: [None] when the model could not be loaded;
    otherwise the pipeline, whose first answer is a label and a score. *)
Variable classifier : option (string -> result (string * Q)).

Definition analyze (subject body : string)
           (sender sender_domain : option string) : detection :=
  let text := Str.lower (subject ++ " " ++ body) in
  let score := 0.0%Q in
  let reasons : list string := [] in
  (* Pattern matching *)
  let urgency_matches := _find_patterns text urgency_patterns in
  let '(score, m_urgency, reasons) :=
    match urgency_matches with
    | [] => (score, [], reasons)
    | _ => ((score + 0.3)%Q, urgency_matches,
            append reasons ("Urgency tactics detected: "
                        ++ Str.join ", " (firstn 2 urgency_matches)))
    end in
  let fear_matches := _find_patterns text fear_patterns in
  let '(score, m_fear, reasons) :=
    match fear_matches with
    | [] => (score, [], reasons)
    | _ => ((score + 0.3)%Q, fear_matches,
            append reasons ("Fear/threat language: "
                        ++ Str.join ", " (firstn 2 fear_matches)))
    end in
  let reward_matches := _find_patterns text reward_patterns in
  let '(score, m_reward, reasons) :=
    match reward_matches with
    | [] => (score, [], reasons)
    | _ => ((score + 0.25)%Q, reward_matches,
            append reasons ("Reward/prize language: "
                        ++ Str.join ", " (firstn 2 reward_matches)))
    end in
  (* Financial keyword detection *)
  let financial_keywords :=
    List.filter (fun kw => Str.contains kw text) bank_keywords in
  let '(score, m_financial, reasons) :=
    match financial_keywords with
    | [] => (score, [], reasons)
    | _ => ((score + 0.15)%Q, financial_keywords,
            if (3 <=? length financial_keywords)%nat
            then append reasons ("Multiple financial keywords detected")
            else reasons)
    end in
  (* Sender domain mismatch *)
  let '(score, reasons) :=
    match sender_domain with
    | Some d =>
        if negb (String.eqb d "") then
          match _check_sender_domain_mismatch text d with
          | Some mismatch =>
              ((score + 0.4)%Q,
               append reasons ("Sender domain mismatch: claims to be "
                           ++ claimed mismatch ++ " but from " ++ d))
          | None => (score, reasons)
          end
        else (score, reasons)
    | None => (score, reasons)
    end in
  (* ML-based classification (if available) *)
  let '(score, reasons) :=
    match classifier with
    | Some pipeline =>
        let ml_text := subject ++ " " ++ Str.take 200 body in
        match pipeline ml_text with
        | Ok (label, ml_score) =>
            if String.eqb label "NEGATIVE" && Qgtb ml_score 0.7%Q
            then ((score + 0.2)%Q,
                  append reasons ("ML model detected suspicious content"))
            else (score, reasons)
        | Raise _ => (score, reasons)
        end
    | None => (score, reasons)
    end in
  (* Final score *)
  let phishing_score := py_min score 1.0%Q in
  mk_detection phishing_score (Qgtb phishing_score 0.5%Q) reasons
               (mk_matches m_urgency m_fear m_reward m_financial).

End Analyze.

End EmailPhishingDetector.

(** ** [urllib.parse.urlparse]

    The URL detector calls the standard library's [urlparse]. This is a
    model of it after CPython 3.12 ([Lib/urllib/parse.py]). The two checks
    that need tables outside this development (the validation of a bracketed
    host, the NFKC check of a non-ASCII host) are the argument
    [validate_netloc]; they run only for a host that has both brackets or a
    character outside ASCII. *)

Module Urllib.

Record ParseResult : Type := mk_parse {
  scheme : string;
  netloc : string;
  path : string;
  params : string;
  query : string;
  fragment : string
}.

Definition scheme_char (c : ascii) : bool :=
  Str.is_alnum c || Ascii.eqb c "+" || Ascii.eqb c "-" || Ascii.eqb c ".".

Definition uses_params : list string :=
  [ ""; "ftp"; "hdl"; "prospero"; "http"; "imap"; "https"; "shttp"; "rtsp";
    "rtspu"; "sip"; "sips"; "mms"; "sftp"; "tel" ].

Definition is_ascii (c : ascii) : bool := (nat_of_ascii c <? 128)%nat.

Fixpoint forall_chars (p : ascii -> bool) (s : string) : bool :=
  match s with
  | EmptyString => true
  | String c s' => p c && forall_chars p s'
  end.

Definition has_char (c : ascii) (s : string) : bool :=
  negb (forall_chars (fun c' => negb (Ascii.eqb c c')) s).

(** [s] cut before the first character that satisfies [p]: the part before
    it, and the rest from that character on ([None] when there is none). *)
Fixpoint break (p : ascii -> bool) (s : string) : string * option string :=
  match s with
  | EmptyString => (EmptyString, None)
  | String c s' =>
      if p c then (EmptyString, Some s)
      else let '(before, rest) := break p s' in (String c before, rest)
  end.

Definition tail (s : string) : string :=
  match s with
  | EmptyString => EmptyString
  | String _ s' => s'
  end.

(** [url.lstrip(_WHATWG_C0_CONTROL_OR_SPACE)] *)
Fixpoint lstrip_c0 (s : string) : string :=
  match s with
  | EmptyString => EmptyString
  | String c s' => if (nat_of_ascii c <=? 32)%nat then lstrip_c0 s' else s
  end.

(** The removal of [_UNSAFE_URL_BYTES_TO_REMOVE]: tab, CR, LF. *)
Fixpoint remove_unsafe (s : string) : string :=
  match s with
  | EmptyString => EmptyString
  | String c s' =>
      let n := nat_of_ascii c in
      if (n =? 9)%nat || (n =? 13)%nat || (n =? 10)%nat
      then remove_unsafe s' else String c (remove_unsafe s')
  end.

(** [s.rfind("/")] then [s.find(";", that)]: the text up to the first [;]
    after the last [/], and what follows the [;]. *)
Fixpoint split_last_segment (s : string) : string * option string :=
  match s with
  | EmptyString => (EmptyString, None)
  | String c s' =>
      if has_char "/" s' then
        let '(before, rest) := split_last_segment s' in
        (String c before, rest)
      else
        let '(before, rest) := break (Ascii.eqb ";") s in
        (before, option_map tail rest)
  end.

Definition _splitparams (url : string) : string * string :=
  if has_char "/" url then
    match split_last_segment url with
    | (before, Some after) => (before, after)
    | (_, None) => (url, "")
    end
  else
    match break (Ascii.eqb ";") url with
    | (before, Some rest) => (before, tail rest)
    | (before, None) =>
        (* [i = -1]: [url[:-1], url[0:]] *)
        (String.substring 0 (String.length url - 1) url, url)
    end.

Section Urlparse.

Variable validate_netloc : string -> result unit.

Definition urlsplit (url : string)
  : result (string * string * string * string * string) :=
  let url := remove_unsafe (lstrip_c0 url) in
  let '(scheme, url) :=
    match break (Ascii.eqb ":") url with
    | (String c0 before, Some rest) =>
        if is_ascii c0 && Str.is_alpha c0
           && forall_chars scheme_char (String c0 before)
        then (Str.lower (String c0 before), tail rest)
        else ("", url)
    | _ => ("", url)
    end in
  let! (netloc, url) :=
    if String.prefix "//" url then
      let '(netloc, rest) :=
        break (fun c => Ascii.eqb c "/" || Ascii.eqb c "?" || Ascii.eqb c "#")
              (tail (tail url)) in
      let url := match rest with Some r => r | None => "" end in
      let lb := has_char "[" netloc in
      let rb := has_char "]" netloc in
      if (lb && negb rb) || (rb && negb lb) then Raise ValueError
      else
        let! _ :=
          if (lb && rb) || negb (forall_chars is_ascii netloc)
          then validate_netloc netloc else Ok tt in
        Ok (netloc, url)
    else Ok ("", url) in
  let '(url, fragment) :=
    match break (Ascii.eqb "#") url with
    | (before, Some rest) => (before, tail rest)
    | (_, None) => (url, "")
    end in
  let '(url, query) :=
    match break (Ascii.eqb "?") url with
    | (before, Some rest) => (before, tail rest)
    | (_, None) => (url, "")
    end in
  Ok (scheme, netloc, url, query, fragment).

Definition urlparse (url : string) : result ParseResult :=
  let! (scheme, netloc, url, query, fragment) := urlsplit url in
  let '(url, params) :=
    if existsb (String.eqb scheme) uses_params && has_char ";" url
    then _splitparams url
    else (url, "") in
  Ok (mk_parse scheme netloc url params query fragment).

End Urlparse.

End Urllib.

(** ** [detectors/url_phishing_detector.py] *)

Module URLPhishingDetector.
Import Re.

(** The values of the [features] dictionary. *)
Inductive fvalue : Type :=
| FInt (n : Z)
| FBool (b : bool)
| FFloat (q : Q)
| FStr (s : string).

Record detection : Type := mk_detection {
  phishing_score : Q;
  is_phishing : bool;
  reasons : list string;
  features : gmap string fvalue
}.

Definition suspicious_tlds : list string :=
  [ "tk"; "ml"; "ga"; "cf"; "gq"; "pw"; "cc"; "top";
    "work"; "click"; "loan"; "racing"; "men"; "download" ].

(** [features[key]] *)
Definition item (features : gmap string fvalue) (key : string) : result fvalue :=
  match features !! key with
  | Some v => Ok v
  | None => Raise (KeyError key)
  end.

(** [v > c] for a number [c]; a [bool] is an [int]. *)
Definition gt_num (v : fvalue) (c : Q) : result bool :=
  match v with
  | FInt n => Ok (Qgtb (inject_Z n) c)
  | FBool b => Ok (Qgtb (if b then 1 else 0) c)
  | FFloat q => Ok (Qgtb q c)
  | FStr _ => Raise TypeError
  end.

(** [bool(v)] *)
Definition truthy (v : fvalue) : bool :=
  match v with
  | FInt n => negb (n =? 0)%Z
  | FBool b => b
  | FFloat q => negb (Qeq_bool q 0)
  | FStr s => negb (String.eqb s "")
  end.

(** [\d{1,3}\.\d{1,3}\.\d{1,3}\.\d{1,3}] *)
Definition ip_pattern : regex :=
  Seq (Rep13 Digit) (Seq (Chr ".") (Seq (Rep13 Digit) (Seq (Chr ".")
    (Seq (Rep13 Digit) (Seq (Chr ".") (Rep13 Digit)))))).

(** [Counter(text)]: the characters in order of first occurrence, each
    with its number of occurrences. *)
Fixpoint increment (c : ascii) (frequencies : list (ascii * Z))
  : list (ascii * Z) :=
  match frequencies with
  | [] => [(c, 1%Z)]
  | (c', n) :: rest =>
      if Ascii.eqb c c' then (c', (n + 1)%Z) :: rest
      else (c', n) :: increment c rest
  end.

Fixpoint Counter_from (text : string) (frequencies : list (ascii * Z))
  : list (ascii * Z) :=
  match text with
  | EmptyString => frequencies
  | String c text' => Counter_from text' (increment c frequencies)
  end.

Definition Counter (text : string) : list (ascii * Z) := Counter_from text [].

Definition _get_default_features : gmap string fvalue :=
  <["domain_entropy" := FFloat 0.0]>
  (<["suspicious_tld" := FBool false]>
  (<["has_ip" := FBool false]>
  (<["num_dots" := FInt 0]>
  (<["length" := FInt 0]> ∅)))).

(** The keys the [try] body of [_extract_features] assigns. *)
Definition feature_names : list string :=
  [ "length"; "domain_length"; "path_length";
    "num_dots"; "num_hyphens"; "num_underscores"; "num_slashes";
    "num_questionmarks"; "num_equals"; "num_at"; "num_ampersands";
    "has_ip"; "num_subdomains"; "tld"; "suspicious_tld"; "has_punycode";
    "has_port"; "domain_entropy"; "special_chars" ].

Section Detector.

(** The collaborators: [urllib.parse.urlparse], [numpy.log2], the
    formatting of a float inside an f-string, and [self.model] (its
    [predict_proba(...)[0][1]]; [None] when no model is loaded). *)
Variable urlparse : string -> result Urllib.ParseResult.
Variable log2 : Q -> Q.
Variable float_str : Q -> string.
Variable model : option (list fvalue -> result Q).

Definition _calculate_entropy (text : string) : Q :=
  if String.eqb text "" then 0.0%Q
  else
    let frequencies := Counter text in
    let length := Str.len text in
    fold_left
      (fun entropy (kv : ascii * Z) =>
         let probability := (inject_Z (snd kv) / inject_Z length)%Q in
         (entropy - probability * log2 probability)%Q)
      frequencies 0.0%Q.

Definition _extract_features (url : string) : gmap string fvalue :=
  let features : gmap string fvalue := ∅ in
  match urlparse url with
  | Ok parsed =>
      let domain := Urllib.netloc parsed in
      let path := Urllib.path parsed in
      (* Basic features *)
      let features := <["length" := FInt (Str.len url)]> features in
      let features := <["domain_length" := FInt (Str.len domain)]> features in
      let features := <["path_length" := FInt (Str.len path)]> features in
      (* Character counts *)
      let features := <["num_dots" := FInt (Str.count "." url)]> features in
      let features := <["num_hyphens" := FInt (Str.count "-" url)]> features in
      let features := <["num_underscores" := FInt (Str.count "_" url)]> features in
      let features := <["num_slashes" := FInt (Str.count "/" url)]> features in
      let features := <["num_questionmarks" := FInt (Str.count "?" url)]> features in
      let features := <["num_equals" := FInt (Str.count "=" url)]> features in
      let features := <["num_at" := FInt (Str.count "@" url)]> features in
      let features := <["num_ampersands" := FInt (Str.count "&" url)]> features in
      (* IP address detection *)
      let features :=
        <["has_ip" := FBool (bool_decide (is_Some (search false ip_pattern domain)))]>
          features in
      (* Subdomain count *)
      let features :=
        <["num_subdomains" :=
            FInt (if Str.contains "." domain
                  then Z.of_nat (length (Str.split "." domain)) - 2
                  else 0)]> features in
      (* TLD check *)
      let tld :=
        if Str.contains "." domain
        then List.last (Str.split "." domain) ""
        else "" in
      let features := <["tld" := FStr tld]> features in
      let features :=
        <["suspicious_tld" :=
            FBool (existsb (String.eqb (Str.lower tld)) suspicious_tlds)]>
          features in
      (* Punycode (IDN homograph attack) *)
      let features :=
        <["has_punycode" := FBool (Str.contains "xn--" domain)]> features in
      (* Port number *)
      let features :=
        <["has_port" := FBool (Str.contains ":" (Urllib.netloc parsed))]>
          features in
      (* Entropy (randomness) of domain *)
      let features :=
        <["domain_entropy" := FFloat (_calculate_entropy domain)]> features in
      (* Special characters in domain *)
      let features :=
        <["special_chars" :=
            FInt (Z.of_nat (length (List.filter
                    (fun c => negb (Str.is_alnum c)
                              && negb (Ascii.eqb c ".")
                              && negb (Ascii.eqb c "-"))
                    (list_ascii_of_string domain))))]> features in
      features
  | Raise _ => _get_default_features
  end.

(** [str(v)] inside an f-string *)
Definition format_value (v : fvalue) : string :=
  match v with
  | FInt n => Str.of_int n
  | FBool b => if b then "True" else "False"
  | FFloat q => float_str q
  | FStr s => s
  end.

Definition _features_to_vector (features : gmap string fvalue) : list fvalue :=
  let feature_order :=
    [ "length"; "domain_length"; "path_length";
      "num_dots"; "num_hyphens"; "num_subdomains";
      "has_ip"; "suspicious_tld"; "domain_entropy" ] in
  map (fun feat =>
         match default (FInt 0) (features !! feat) with
         | FBool b => FInt (if b then 1 else 0)
         | value => value
         end) feature_order.

(** One rule of [analyze] whose test is [features[key] > bound]. *)
Definition rule_gt (features : gmap string fvalue) (key : string) (bound : Q)
           (points : Q) (reason : fvalue -> result string)
           (st : Q * list string) : result (Q * list string) :=
  let '(score, reasons) := st in
  let! v := item features key in
  let! fires := gt_num v bound in
  if fires then
    let! text := reason v in
    Ok ((score + points)%Q, append reasons text)
  else Ok st.

(** One rule of [analyze] whose test is [features[key]]. *)
Definition rule_if (features : gmap string fvalue) (key : string)
           (points : Q) (reason : result string)
           (st : Q * list string) : result (Q * list string) :=
  let '(score, reasons) := st in
  let! v := item features key in
  if truthy v then
    let! text := reason in
    Ok ((score + points)%Q, append reasons text)
  else Ok st.

(** The part of [analyze] after the features are extracted. *)
Definition score_features (features : gmap string fvalue) : result detection :=
  let st := (0.0%Q, @nil string) in
  (* Rule-based scoring *)
  let! st := rule_gt features "length" 75 0.2%Q
                     (fun _ => Ok "Unusually long URL") st in
  let! st := rule_if features "has_ip" 0.3%Q
                     (Ok "URL contains IP address") st in
  let! st := rule_gt features "num_subdomains" 3 0.25%Q
                     (fun _ =>
                        let! v := item features "num_subdomains" in
                        Ok ("Too many subdomains (" ++ format_value v ++ ")"))
                     st in
  let! st := rule_gt features "num_at" 0 0.25%Q
                     (fun _ => Ok "URL contains @ symbol (redirect)") st in
  let! st := rule_gt features "num_hyphens" 3 0.15%Q
                     (fun _ => Ok "Excessive hyphens in URL") st in
  let! st := rule_if features "suspicious_tld" 0.2%Q
                     (let! v := item features "tld" in
                      Ok ("Suspicious domain extension: ." ++ format_value v))
                     st in
  let! st := rule_if features "has_punycode" 0.25%Q
                     (Ok "Punycode detected (possible homograph attack)") st in
  (* Entropy check *)
  let! st := rule_gt features "domain_entropy" 4.5%Q 0.2%Q
                     (fun _ => Ok "Domain appears randomly generated") st in
  let '(score, reasons) := st in
  (* If model is available, use it *)
  let score :=
    match model with
    | Some predict =>
        match predict (_features_to_vector features) with
        | Ok ml_score => ((score * 0.7) + (ml_score * 0.3))%Q
        | Raise _ => score
        end
    | None => score
    end in
  let phishing_score := py_min score 1.0%Q in
  Ok (mk_detection phishing_score (Qgtb phishing_score 0.6%Q) reasons features).

Definition analyze (url : string) : result detection :=
  score_features (_extract_features url).

End Detector.

(** The additive score as the specification words it: the listed points
    for the listed tests, summed and clamped at 1. *)
Definition spec_score (length : Z) (hasIp : bool) (subdomains atCount hyphens : Z)
           (suspiciousTld hasPunycode : bool) (entropy : Q) : Q :=
  let points (test : bool) (p : Q) : Q := if test then p else 0%Q in
  Qmin 1
    (points (75 <? length)%Z 0.2
     + points hasIp 0.3
     + points (3 <? subdomains)%Z 0.25
     + points (0 <? atCount)%Z 0.25
     + points (3 <? hyphens)%Z 0.15
     + points suspiciousTld 0.2
     + points hasPunycode 0.25
     + points (Qgtb entropy 4.5) 0.2)%Q.

End URLPhishingDetector.

(** ** Inputs of the worked examples *)

Module Examples.
Import RiskScorer.

(** [{"financialIntent": 0.6, "urlPhishing": 0.8}] *)
Definition two_signals : gmap string optfloat :=
  <["financialIntent" := PyFloat 0.6]> (<["urlPhishing" := PyFloat 0.8]> ∅).

(** The same two signals as [app.py] passes them: the other three keys are
    present and hold [None]. *)
Definition two_signals_request : gmap string optfloat :=
  request_signals PyNone (PyFloat 0.8) (PyFloat 0.6) PyNone PyNone.

(** All five keys present, all [None]. *)
Definition all_None : gmap string optfloat :=
  request_signals PyNone PyNone PyNone PyNone PyNone.

(** Five signals and one more key. *)
Definition six_values : gmap string optfloat :=
  <["pageRank" := PyFloat 0.5]>
    (request_signals (PyFloat 0.5) (PyFloat 0.1) (PyFloat 0.1)
                     (PyFloat 0.1) (PyFloat 0.1)).

Definition urgent_subject : string := "URGENT: your account will be suspended".

Definition ip_url : string := "http://192.168.1.1/login?x=1".

(** A URL [urlparse] rejects with [ValueError("Invalid IPv6 URL")]. *)
Definition bad_url : string := "http://[".

(** A WHOIS collaborator that fails. *)
Definition failing_whois (_ : string) : result DomainChecker.whois_entry :=
  Raise LookupFailure.

(** A WHOIS answer without a creation date. *)
Definition undated_whois (_ : string) : result DomainChecker.whois_entry :=
  Ok (DomainChecker.mk_whois (DomainChecker.Single DomainChecker.DateNone)
                             (Some (Some "Example Registrar"))).

(** A WHOIS answer whose creation date lies one day after [now]. *)
Definition future_whois (now : Z) (_ : string) : result DomainChecker.whois_entry :=
  Ok (DomainChecker.mk_whois
        (DomainChecker.Single
           (DomainChecker.Datetime (now + DomainChecker.microseconds_per_day)))
        (Some (Some "Example Registrar"))).

(** The largest integer [k] with [2^k <= p], for [p > 0]: a stand-in for
    [numpy.log2] that is exact on the powers of two. *)
Definition floor_log2 (p : Q) : Q :=
  let k := (Z.log2 (Qnum p) - Z.log2 (Zpos (Qden p)))%Z in
  if Qle_bool (Qpower 2 k) p then inject_Z k else inject_Z (k - 1).

End Examples.

(** ** [detectors/webpage_classifier.py] *)

Module WebpageClassifier.

Definition financial_keywords : list string :=
  [ "bank"; "banking"; "login"; "password"; "otp"; "cvv"; "pin";
    "upi"; "payment"; "transaction"; "account"; "netbanking";
    "debit"; "credit"; "card number"; "transfer"; "balance" ].

Definition phishing_indicators : list string :=
  [ "verify your account"; "confirm your identity"; "urgent action";
    "suspended account"; "unusual activity"; "click here immediately";
    "enter your password"; "update your information" ].

Record classification : Type := mk_classification {
  is_financial : bool;
  is_phishing : bool;
  phishing_score : Q;
  confidence : Q;
  category : string
}.

(** What the zero-shot pipeline answers: [ml_result['labels']] and
    [ml_result['scores']]. *)
Record ml_result : Type := mk_ml {
  labels : list string;
  scores : list Q
}.

Definition _count_keywords (text : string) (keywords : list string) : Z :=
  fold_left (fun count keyword =>
               if Str.contains keyword text then (count + 1)%Z else count)
            keywords 0%Z.

(** [labels.index(x) if x in labels else -1]: the first position of [x],
    counted from [i]; [None] stands for -1. *)
Fixpoint index_from (x : string) (l : list string) (i : nat) : option nat :=
  match l with
  | [] => None
  | y :: l' => if String.eqb y x then Some i else index_from x l' (S i)
  end.

Definition categories : list string :=
  [ "legitimate banking website"; "phishing or scam website";
    "legitimate e-commerce"; "informational website" ].

Section Classify.

(** [self.classifier]: [None] when the model could not be loaded. *)
Variable classifier : option (string -> list string -> result ml_result).

(** Lines 86-112: the blend with the model's opinion; the state is
    [(score, result['confidence'])]. *)
Definition blend (text_sample : string) (score confidence0 : Q) : Q * Q :=
  match classifier with
  | Some pipeline =>
      match pipeline text_sample categories with
      | Ok ml =>
          match index_from "phishing or scam website" (labels ml) 0 with
          | Some phishing_idx =>
              match nth_error (scores ml) phishing_idx with
              | Some ml_phishing_score =>
                  (((score * 0.6) + (ml_phishing_score * 0.4))%Q,
                   ml_phishing_score)
              | None => (score, confidence0)   (* IndexError, caught *)
              end
          | None => (score, confidence0)
          end
      | Raise _ => (score, confidence0)
      end
  | None => (score, confidence0)
  end.

Definition classify (text url : string) : classification :=
  (* Truncate text for processing (first 1000 chars) *)
  let text_sample := Str.lower (Str.take 1000 text) in
  (* Rule-based checks *)
  let financial_score := _count_keywords text_sample financial_keywords in
  let phishing_score := _count_keywords text_sample phishing_indicators in
  (* Determine if financial *)
  let '(is_financial, category) :=
    if (3 <=? financial_score)%Z then (true, "financial") else (false, "unknown") in
  (* Calculate phishing score *)
  let score := 0.0%Q in
  let score :=
    if (0 <? phishing_score)%Z
    then (score + py_min (inject_Z phishing_score * 0.15) 0.4)%Q
    else score in
  let score :=
    if (0 <? financial_score)%Z && (0 <? phishing_score)%Z
    then (score + 0.3)%Q
    else score in
  (* Use ML model if available *)
  let '(score, confidence) := blend text_sample score 0.0%Q in
  let phishing_score := py_min score 1.0%Q in
  mk_classification is_financial (Qgtb phishing_score 0.5%Q) phishing_score
                    confidence category.

End Classify.

End WebpageClassifier.

(** ** [app.py]: the endpoints *)

Module App.

(** What leaves an endpoint: the body of a 200 answer, or the
    [HTTPException] FastAPI turns into an error answer. *)
Inductive response (A : Type) : Type :=
| Return (body : A)
| HTTPException (status_code : Z) (detail : string).
Arguments Return {A} body.
Arguments HTTPException {A} status_code detail.

(** The exceptions the [try] body of an endpoint can raise: one of the
    detectors', or the endpoint's own [HTTPException]. *)
Inductive raised : Type :=
| FromDetector (e : exn)
| Http (status_code : Z) (detail : string).

Definition status {A} (r : response A) : Z :=
  match r with
  | Return _ => 200
  | HTTPException status_code _ => status_code
  end.

Section Endpoints.

(** [str(e)] of the handler. *)
Variable str_exn : raised -> string.

(** The collaborators of the detectors. *)
Variable email_classifier : option (string -> result (string * Q)).
Variable webpage_classifier
  : option (string -> list string -> result WebpageClassifier.ml_result).
Variable urlparse : string -> result Urllib.ParseResult.
Variable log2 : Q -> Q.
Variable float_str : Q -> string.
Variable whois : string -> result DomainChecker.whois_entry.
Variable now : Z.
Variable isoformat : Z -> string.

(** [except Exception as e: raise HTTPException(status_code=500,
    detail=str(e))]: [HTTPException] is an [Exception], so the handler also
    catches the one the body raised itself. *)
Definition handle {A} (body : raised + A) : response A :=
  match body with
  | inr result => Return result
  | inl e => HTTPException 500 (str_exn e)
  end.

(** Each endpoint takes the global it tests ([True] once [startup_event]
    has built the detector, [False] while it is [None]). *)
Definition analyze_email (email_detector : bool)
           (subject body : string) (sender sender_domain : option string)
  : response EmailPhishingDetector.detection :=
  handle
    (if negb email_detector
     then inl (Http 503 "Email detector not initialized")
     else inr (EmailPhishingDetector.analyze email_classifier
                 subject body sender sender_domain)).

Definition analyze_url (url_detector : bool) (url : string)
  : response URLPhishingDetector.detection :=
  handle
    (if negb url_detector
     then inl (Http 503 "URL detector not initialized")
     else match URLPhishingDetector.analyze urlparse log2 float_str None url with
          | Ok result => inr result
          | Raise e => inl (FromDetector e)
          end).

Definition analyze_webpage (webpage_classifier_ready : bool) (text url : string)
  : response WebpageClassifier.classification :=
  handle
    (if negb webpage_classifier_ready
     then inl (Http 503 "Webpage classifier not initialized")
     else inr (WebpageClassifier.classify webpage_classifier text url)).

Definition calculate_risk_score (risk_scorer : bool)
           (websiteTrust urlPhishing financialIntent otpMisuse upiScam : optfloat)
  : response RiskScorer.verdict :=
  handle
    (if negb risk_scorer
     then inl (Http 503 "Risk scorer not initialized")
     else
       let signals :=
         RiskScorer.request_signals websiteTrust urlPhishing financialIntent
                                    otpMisuse upiScam in
       match RiskScorer.calculate signals with
       | Ok result => inr result
       | Raise e => inl (FromDetector e)
       end).

Definition check_domain_age (domain_checker : bool) (domain : string)
  : response DomainChecker.age_result :=
  handle
    (if negb domain_checker
     then inl (Http 503 "Domain checker not initialized")
     else inr (DomainChecker.check_age whois now isoformat domain)).

End Endpoints.

End App.

(** ** Vocabulary of the statements *)

Module Facts.

(** The points of one additive rule. *)
Definition points (test : bool) (p : Q) : Q := if test then p else 0%Q.

(** How many of the tests hold. *)
Definition fired (tests : list bool) : nat := length (List.filter id tests).

(** The number stored for [c] in a frequency table, 0 when [c] has no
    entry. *)
Fixpoint frequency (c : ascii) (frequencies : list (ascii * Z)) : Z :=
  match frequencies with
  | [] => 0
  | (c', n) :: rest =>
      if Ascii.eqb c c' then n else frequency c rest
  end.

(** The email detector's tests. *)
Definition email_text (subject body : string) : string :=
  Str.lower (subject ++ " " ++ body).

Definition matches_any (text : string) (patterns : list Re.regex) : bool :=
  existsb (fun pattern => bool_decide (is_Some (Re.search true pattern text)))
          patterns.

Definition mentions_keyword (text : string) : bool :=
  existsb (fun kw => Str.contains kw text) EmailPhishingDetector.bank_keywords.

Definition mismatch_found (text : string) (sender_domain : option string) : bool :=
  match sender_domain with
  | Some d =>
      negb (String.eqb d "")
      && bool_decide
           (is_Some (EmailPhishingDetector._check_sender_domain_mismatch text d))
  | None => false
  end.

Definition ml_negative (classifier : option (string -> result (string * Q)))
           (subject body : string) : bool :=
  match classifier with
  | Some pipeline =>
      match pipeline (subject ++ " " ++ Str.take 200 body) with
      | Ok (label, ml_score) => String.eqb label "NEGATIVE" && Qgtb ml_score 0.7%Q
      | Raise _ => false
      end
  | None => false
  end.

(** A string of [n] copies of [c]. *)
Fixpoint replicate_char (n : nat) (c : ascii) : string :=
  match n with
  | O => EmptyString
  | S n' => String c (replicate_char n' c)
  end.

(** Does not begin with white space. *)
Definition trimmed_left (s : string) : Prop :=
  match s with
  | EmptyString => True
  | String c _ => Str.is_space c = false
  end.

(** A well-formed frequency table: distinct keys, positive counts. *)
Definition table (l : list (ascii * Z)) : Prop :=
  NoDup l.*1 /\ Forall (fun kv => (1 <= kv.2)%Z) l.


(** The state of the URL rules: every reason so far came with 0.15 to 0.3
    points. *)
Definition rule_state (st : Q * list string) : Prop :=
  (0.15 * inject_Z (Z.of_nat (length (snd st))) <= fst st
   /\ fst st <= 0.3 * inject_Z (Z.of_nat (length (snd st))))%Q.

End Facts.

(** * Properties *)

(** ** Comparisons on floats *)

Section Comparisons.
Local Open Scope Q_scope.

Lemma Qgtb_true (a b : Q) : Qgtb a b = true <-> b < a.
Proof.
  unfold Qgtb. rewrite negb_true_iff, <- not_true_iff_false, Qle_bool_iff.
  split; [apply Qnot_le_lt | apply Qlt_not_le].
Qed.

Lemma Qgtb_false (a b : Q) : Qgtb a b = false <-> a <= b.
Proof. unfold Qgtb. rewrite negb_false_iff. apply Qle_bool_iff. Qed.

Lemma Qgeb_true (a b : Q) : Qgeb a b = true <-> b <= a.
Proof. apply Qle_bool_iff. Qed.

Lemma Qgeb_false (a b : Q) : Qgeb a b = false <-> a < b.
Proof.
  unfold Qgeb. rewrite <- not_true_iff_false, Qle_bool_iff.
  split; [apply Qnot_le_lt | apply Qlt_not_le].
Qed.

#[local] Instance Qgtb_proper : Proper (Qeq ==> Qeq ==> eq) Qgtb.
Proof.
  intros a a' Ha b b' Hb.
  destruct (Qgtb a b) eqn:E, (Qgtb a' b') eqn:E'; try reflexivity.
  - apply Qgtb_true in E. apply Qgtb_false in E'. rewrite Ha, Hb in E. lra.
  - apply Qgtb_true in E'. apply Qgtb_false in E. rewrite Ha, Hb in E. lra.
Qed.


Lemma py_min_spec (a b : Q) : py_min a b == Qmin a b.
Proof.
  unfold py_min. destruct (Qgtb a b) eqn:E.
  - apply Qgtb_true in E. symmetry. apply Q.min_r. lra.
  - apply Qgtb_false in E. symmetry. apply Q.min_l. exact E.
Qed.

Lemma py_min_cases (a b : Q) :
  (b < a /\ py_min a b = b) \/ (a <= b /\ py_min a b = a).
Proof.
  unfold py_min. destruct (Qgtb a b) eqn:E.
  - left. apply Qgtb_true in E. auto.
  - right. apply Qgtb_false in E. auto.
Qed.

End Comparisons.

(** ** The risk fusion engine *)

Section Fusion.
Import RiskScorer.
Local Open Scope Q_scope.

Lemma weights_nonneg : nonneg_weights weights.
Proof. unfold nonneg_weights, weights. repeat constructor; simpl; lra. Qed.

Lemma dict_get_float s k q :
  dict_get s k = PyFloat q -> s !! k = Some (PyFloat q).
Proof. unfold dict_get. destruct (s !! k) as [[|]|]; congruence. Qed.

(** The loop keeps [0 <= total_score <= total_weight]. *)
Lemma accumulate_bounds s acc item :
  unit_valued s -> 0 <= snd item ->
  0 <= fst acc <= snd acc ->
  0 <= fst (accumulate s acc item) <= snd (accumulate s acc item).
Proof.
  intros Hs Hw Hacc. destruct acc as [ts tw], item as [name wt].
  simpl in *. destruct (dict_get s name) as [|q] eqn:E; simpl; [exact Hacc|].
  apply dict_get_float, Hs in E. unfold normalized_value.
  destruct (String.eqb name "websiteTrust"); simpl; split; nra.
Qed.

Lemma fold_accumulate_bounds s w acc :
  unit_valued s -> nonneg_weights w ->
  0 <= fst acc <= snd acc ->
  0 <= fst (fold_left (accumulate s) w acc)
    <= snd (fold_left (accumulate s) w acc).
Proof.
  intros Hs Hw. revert acc.
  induction Hw as [|item w Hitem _ IH]; intros acc Hacc; simpl; [exact Hacc|].
  apply IH. now apply accumulate_bounds.
Qed.

Lemma weighted_totals_bounds s w :
  unit_valued s -> nonneg_weights w ->
  0 <= fst (weighted_totals w s) <= snd (weighted_totals w s).
Proof.
  intros Hs Hw. apply fold_accumulate_bounds; auto. simpl. lra.
Qed.

Lemma average_bounds totals :
  0 <= fst totals <= snd totals -> 0 <= average totals <= 1.
Proof.
  destruct totals as [ts tw]. unfold average. simpl. intros H.
  destruct (Qgtb tw 0) eqn:E; [|lra].
  apply Qgtb_true in E. split.
  - apply Qle_shift_div_l; lra.
  - apply Qle_shift_div_r; lra.
Qed.

Lemma fused_score_bounds w s score :
  unit_valued s -> nonneg_weights w ->
  fused_score w s = Ok score -> 0 <= score <= 1.
Proof.
  intros Hs Hw. unfold fused_score.
  pose proof (average_bounds _ (weighted_totals_bounds s w Hs Hw)) as Ha.
  destruct (gt_float _ _) as [[|]|]; simpl; intros [= <-]; [|exact Ha].
  destruct (py_min_cases (average (weighted_totals w s) * 1.3) 1.0)
    as [[? ->]|[? ->]]; lra.
Qed.

(** What [calculate_with] puts into the verdict. *)
Lemma calculate_with_fields w s v :
  calculate_with w s = Ok v ->
  fused_score w s = Ok (risk_score v)
  /\ int_truediv (available_signals s) (length w) = Ok (confidence v).
Proof.
  unfold calculate_with. destruct (fused_score w s) as [score|]; simpl; [|discriminate].
  match goal with |- bind ?m _ = _ -> _ => destruct m as [[level expl]|] end;
    simpl; [|discriminate].
  destruct (int_truediv _ _); simpl; [|discriminate].
  intros [= <-]. auto.
Qed.

(** [calculate] raises nothing but the [TypeError] of a comparison with
    [None]. *)
Lemma gt_float_raises v c e : gt_float v c = Raise e -> e = TypeError.
Proof. destruct v; simpl; congruence. Qed.

Lemma generate_explanation_high_raises s e :
  _generate_explanation "high" s = Raise e -> e = TypeError.
Proof.
  unfold _generate_explanation. simpl.
  destruct (gt_float (dict_get_default s "upiScam" 0) 0.7) as [[|]|] eqn:E1; simpl;
    try discriminate; try (intros [= <-]; eapply gt_float_raises; eassumption).
  destruct (gt_float (dict_get_default s "otpMisuse" 0) 0.7) as [[|]|] eqn:E2; simpl;
    try discriminate; try (intros [= <-]; eapply gt_float_raises; eassumption).
  destruct (gt_float (dict_get_default s "urlPhishing" 0) 0.7) as [[|]|] eqn:E3; simpl;
    try discriminate; try (intros [= <-]; eapply gt_float_raises; eassumption).
Qed.

Lemma generate_explanation_medium_raises s e :
  _generate_explanation "medium" s = Raise e -> e = TypeError.
Proof.
  unfold _generate_explanation. simpl.
  destruct (gt_float (dict_get_default s "financialIntent" 0) 0.5) as [[|]|] eqn:E1;
    simpl; try discriminate; intros [= <-]; eapply gt_float_raises; eassumption.
Qed.

Lemma calculate_raises s e : calculate s = Raise e -> e = TypeError.
Proof.
  unfold calculate, calculate_with, fused_score.
  destruct (gt_float (dict_get_default s "financialIntent" 0) 0.5) as [amp|] eqn:E;
    simpl; [|intros [= <-]; eapply gt_float_raises; eassumption].
  match goal with |- context [Qgeb ?x 0.7] => destruct (Qgeb x 0.7) end.
  - destruct (_generate_explanation "high" s) eqn:G; simpl; [discriminate|].
    intros [= <-]. eapply generate_explanation_high_raises; eassumption.
  - match goal with |- context [Qgeb ?x 0.4] => destruct (Qgeb x 0.4) end.
    + destruct (_generate_explanation "medium" s) eqn:G; simpl; [discriminate|].
      intros [= <-]. eapply generate_explanation_medium_raises; eassumption.
    + simpl. discriminate.
Qed.

End Fusion.

Section Confidence.
Import RiskScorer.
Local Open Scope Q_scope.

(** The generator of line 91 counts the entries of the whole mapping whose
    value is not [None], whatever their keys. *)
Lemma available_signals_size (s : gmap string optfloat) :
  available_signals s = size (not_None_entries s).
Proof.
  unfold available_signals, not_None_entries, dict_values.
  induction s as [|k v s Hk IH] using map_ind.
  - rewrite map_filter_empty, map_to_list_empty, map_size_empty. reflexivity.
  - rewrite (map_to_list_insert s k v Hk). rewrite fmap_cons. simpl.
    rewrite filter_cons. rewrite map_filter_insert. simpl.
    destruct (decide (is_not_None v = true)) as [Hv|Hv].
    + simpl. rewrite IH. rewrite map_size_insert_None; [reflexivity|].
      apply map_lookup_filter_None. left. exact Hk.
    + rewrite IH. rewrite delete_id by exact Hk. reflexivity.
Qed.

Lemma available_signals_le_size (s : gmap string optfloat) :
  (available_signals s <= size s)%nat.
Proof.
  unfold available_signals, dict_values.
  etransitivity; [apply length_filter|].
  rewrite length_fmap, length_map_to_list. reflexivity.
Qed.

Lemma signal_bundle_size (s : gmap string optfloat) :
  dom s ⊆ list_to_set signal_names -> (size s <= 5)%nat.
Proof.
  intros Hdom. rewrite <- size_dom.
  etransitivity; [apply subseteq_size, Hdom|].
  rewrite size_list_to_set; [reflexivity|].
  apply (bool_decide_unpack _). vm_compute. exact I.
Qed.

Lemma confidence_value s v :
  calculate s = Ok v ->
  confidence v = inject_Z (Z.of_nat (available_signals s)) / inject_Z 5.
Proof.
  intros H. apply calculate_with_fields in H as [_ H].
  injection H as <-. reflexivity.
Qed.

Lemma confidence_bounds s v :
  dom s ⊆ list_to_set signal_names ->
  calculate s = Ok v -> 0 <= confidence v <= 1.
Proof.
  intros Hdom H. rewrite (confidence_value s v H).
  pose proof (available_signals_le_size s) as H1.
  pose proof (signal_bundle_size s Hdom) as H2.
  assert (Hn : (0 <= Z.of_nat (available_signals s) <= 5)%Z) by lia.
  split.
  - apply Qle_shift_div_l; [reflexivity|].
    rewrite Qmult_0_l. change 0 with (inject_Z 0). rewrite <- Zle_Qle. lia.
  - apply Qle_shift_div_r; [reflexivity|].
    rewrite Qmult_1_l. rewrite <- Zle_Qle. lia.
Qed.

End Confidence.

Section FusionClaims.
Import RiskScorer Examples.
Local Open Scope Q_scope.

(** Reading a dictionary written as a chain of insertions: one case per
    key, closed by [tac]. *)
Ltac by_insertions H tac :=
  repeat (apply lookup_insert_Some in H as [[? H]|[_ H]]; [tac|]);
  rewrite lookup_empty in H; discriminate.

(** What [app.py] passes is a signal bundle when the request fields are
    [None] or floats of [[0,1]]. *)
Lemma request_signals_bundle (wt up fi om us : optfloat) :
  unit_optfloat wt -> unit_optfloat up -> unit_optfloat fi ->
  unit_optfloat om -> unit_optfloat us ->
  signal_bundle (request_signals wt up fi om us).
Proof.
  intros Hwt Hup Hfi Hom Hus. split.
  - unfold request_signals, signal_names, weights.
    rewrite !dom_insert_L, dom_empty_L.
    apply (bool_decide_unpack _). vm_compute. exact I.
  - intros k q H. unfold request_signals in H.
    by_insertions H ltac:(subst; simpl in *; assumption).
Qed.

Lemma two_signals_bundle : signal_bundle two_signals.
Proof.
  split.
  - unfold two_signals, signal_names, weights.
    rewrite !dom_insert_L, dom_empty_L.
    apply (bool_decide_unpack _). vm_compute. exact I.
  - intros k q H. unfold two_signals in H.
    by_insertions H ltac:(injection H as <-; split; discriminate).
Qed.

(** C1. For the bundle [{financialIntent: 0.6, urlPhishing: 0.8}] the
    weights of the two signals sum to 0.50, the weighted average is 0.68,
    the multiplier 1.3 applies because [financialIntent > 0.5], and
    [calculate] returns risk score 0.884 with level "high". *)
Theorem calculate_two_signals :
  snd (weighted_totals weights two_signals) == 0.50
  /\ average (weighted_totals weights two_signals)
     == (0.6 * 0.30 + 0.8 * 0.20) / 0.50
  /\ average (weighted_totals weights two_signals) == 0.68
  /\ gt_float (dict_get_default two_signals "financialIntent" 0) 0.5 = Ok true
  /\ exists v,
       calculate two_signals = Ok v
       /\ risk_score v == 0.68 * 1.3
       /\ risk_score v == 0.884
       /\ risk_level v = "high"
       /\ explanation v =
          "⚠️ HIGH RISK - DO NOT PROCEED. The URL shows strong phishing indicators. We strongly recommend leaving this website."
       /\ confidence v == 2 / 5.
Proof.
  repeat split; try (vm_compute; reflexivity).
  eexists. split; [vm_compute; reflexivity|].
  repeat split; vm_compute; reflexivity.
Qed.

(** C2. A bundle of the five names with [None] or floats of [[0,1]] gives
    a risk score and a confidence in [[0,1]] whenever [calculate] returns,
    and the only exception it can raise is the [TypeError] of comparing
    [None] with a float; the bundle with [urlPhishing = 0.8],
    [financialIntent = 0.6] and the other three [None] raises it. *)
Theorem calculate_range_unless_TypeError :
  (forall s, signal_bundle s ->
     match calculate s with
     | Ok v => 0 <= risk_score v <= 1 /\ 0 <= confidence v <= 1
     | Raise e => e = TypeError
     end)
  /\ signal_bundle two_signals_request
  /\ calculate two_signals_request = Raise TypeError.
Proof.
  split; [|split].
  - intros s [Hdom Hval]. destruct (calculate s) as [v|e] eqn:E.
    + split.
      * apply calculate_with_fields in E as [E _].
        eapply fused_score_bounds; eauto using weights_nonneg.
      * eapply confidence_bounds; eauto.
    + eapply calculate_raises; eauto.
  - apply request_signals_bundle; simpl; auto; split; discriminate.
  - vm_compute. reflexivity.
Qed.

(** The first part at the two-signal dictionary of C1. *)
Lemma calculate_range_unless_TypeError_witness :
  signal_bundle two_signals
  /\ match calculate two_signals with
     | Ok v => 0 <= risk_score v <= 1 /\ 0 <= confidence v <= 1
     | Raise e => e = TypeError
     end.
Proof.
  split; [exact two_signals_bundle|].
  exact (proj1 calculate_range_unless_TypeError two_signals two_signals_bundle).
Defined.

(** C6. With all five keys present and [None], [calculate] raises
    [TypeError]: the division is guarded, but the comparison
    [signals.get('financialIntent', 0) > 0.5] meets [None]. With the five
    keys missing the same call returns 0.0 / "low" / 0.0. *)
Theorem calculate_all_None :
  signal_bundle all_None
  /\ average (weighted_totals weights all_None) = 0.0
  /\ calculate all_None = Raise TypeError
  /\ calculate ∅ =
     Ok (mk_verdict 0.0 "low" "This page appears safe based on our analysis." (0 # 5)).
Proof.
  split; [apply request_signals_bundle; exact I|].
  repeat split; vm_compute; reflexivity.
Qed.

(** C10. The confidence [calculate] returns is the number of entries of
    the whole input mapping, under any key, whose value is not [None],
    divided by 5; for the five signals plus one more key it is 6/5. *)
Theorem confidence_counts_every_key :
  (forall s v, calculate s = Ok v ->
     confidence v = inject_Z (Z.of_nat (size (not_None_entries s))) / inject_Z 5)
  /\ (forall s k q, s !! k = None ->
        size (not_None_entries (<[k := PyFloat q]> s))
        = S (size (not_None_entries s)))
  /\ six_values !! "pageRank" = Some (PyFloat 0.5)
  /\ ("pageRank" ∉ signal_names)
  /\ exists v, calculate six_values = Ok v
               /\ confidence v == 6 / 5 /\ 1 < confidence v.
Proof.
  split; [|split].
  - intros s v H. rewrite <- available_signals_size.
    now apply confidence_value.
  - intros s k q Hk. unfold not_None_entries.
    rewrite map_filter_insert_True by reflexivity.
    apply map_size_insert_None, map_lookup_filter_None. left. exact Hk.
  - split; [vm_compute; reflexivity|].
    split; [apply (bool_decide_unpack _); vm_compute; exact I|].
    eexists. split; [vm_compute; reflexivity|].
    split; vm_compute; reflexivity.
Qed.

(** The first part at the six-entry mapping. *)
Lemma confidence_counts_every_key_witness :
  exists v, calculate six_values = Ok v
    /\ confidence v
       = inject_Z (Z.of_nat (size (not_None_entries six_values))) / inject_Z 5.
Proof.
  eexists. split; [vm_compute; reflexivity|].
  apply (proj1 confidence_counts_every_key). vm_compute. reflexivity.
Defined.

End FusionClaims.

Section Monotone.
Import RiskScorer.
Local Open Scope Q_scope.

Variable s : gmap string optfloat.
Variables (n : string) (v v' : Q).
Hypothesis s_unit : unit_valued s.
Hypothesis n_present : s !! n = Some (PyFloat v).
Hypothesis v'_unit : 0 <= v' <= 1.
Hypothesis v_le : normalized_value n v <= normalized_value n v'.

Let s' : gmap string optfloat := <[n := PyFloat v']> s.

Lemma insert_unit_valued : unit_valued s'.
Proof.
  intros k q. unfold s'. rewrite lookup_insert_Some.
  intros [[_ [= <-]]|[_ Hk]]; [exact v'_unit | eapply s_unit, Hk].
Qed.

(** One iteration: the weight sum is the same, the score sum does not
    decrease. *)
Lemma accumulate_monotone acc acc' item :
  0 <= snd item -> snd acc = snd acc' -> fst acc <= fst acc' ->
  snd (accumulate s acc item) = snd (accumulate s' acc' item)
  /\ fst (accumulate s acc item) <= fst (accumulate s' acc' item).
Proof.
  destruct acc as [ts tw], acc' as [ts' tw'], item as [name wt]. simpl.
  intros Hw -> Hts. unfold dict_get, s'.
  destruct (decide (n = name)) as [<-|Hne].
  - rewrite lookup_insert_eq, n_present. simpl.
    split; [reflexivity|]. nra.
  - rewrite lookup_insert_ne by exact Hne.
    destruct (s !! name) as [[|q]|]; simpl; auto.
    split; [reflexivity|]. lra.
Qed.

Lemma fold_accumulate_monotone w acc acc' :
  nonneg_weights w -> snd acc = snd acc' -> fst acc <= fst acc' ->
  snd (fold_left (accumulate s) w acc) = snd (fold_left (accumulate s') w acc')
  /\ fst (fold_left (accumulate s) w acc) <= fst (fold_left (accumulate s') w acc').
Proof.
  intros Hw. revert acc acc'.
  induction Hw as [|item w Hitem _ IH]; intros acc acc' Hsnd Hfst; simpl; [auto|].
  destruct (accumulate_monotone acc acc' item Hitem Hsnd Hfst) as [H1 H2].
  now apply IH.
Qed.

Lemma average_monotone w :
  nonneg_weights w ->
  average (weighted_totals w s) <= average (weighted_totals w s').
Proof.
  intros Hw. unfold weighted_totals.
  destruct (fold_accumulate_monotone w (0.0, 0.0) (0.0, 0.0) Hw eq_refl)
    as [Htw Hts]; [simpl; lra|].
  destruct (fold_left (accumulate s) w _) as [ts tw].
  destruct (fold_left (accumulate s') w _) as [ts' tw'].
  simpl in *. subst tw'. destruct (Qgtb tw 0) eqn:E; [|lra].
  apply Qgtb_true in E. unfold Qdiv. apply Qmult_le_compat_r; [exact Hts|].
  apply Qinv_le_0_compat. lra.
Qed.

(** The test of the multiplier can only switch on. *)
Lemma amplify_monotone a :
  gt_float (dict_get_default s "financialIntent" 0) 0.5 = Ok a ->
  exists a', gt_float (dict_get_default s' "financialIntent" 0) 0.5 = Ok a'
             /\ (a = true -> a' = true).
Proof.
  unfold dict_get_default, s'.
  destruct (decide (n = "financialIntent")) as [->|Hne].
  - rewrite lookup_insert_eq, n_present. simpl. intros [= <-].
    eexists. split; [reflexivity|]. rewrite !Qgtb_true.
    unfold normalized_value in v_le. simpl in v_le. lra.
  - rewrite lookup_insert_ne by exact Hne. intros H. exists a. auto.
Qed.

(** Lines 52-77 on the two bundles: the second returns whenever the first
    does, and with a score at least as large. *)
Lemma fused_score_monotone w q :
  nonneg_weights w ->
  fused_score w s = Ok q ->
  exists q', fused_score w s' = Ok q' /\ q <= q'.
Proof.
  intros Hw. unfold fused_score.
  pose proof (average_monotone w Hw) as Hle.
  pose proof (average_bounds _ (weighted_totals_bounds s w s_unit Hw)) as Hb.
  pose proof (average_bounds _ (weighted_totals_bounds s' w insert_unit_valued Hw))
    as Hb'.
  destruct (gt_float (dict_get_default s "financialIntent" 0) 0.5) as [a|] eqn:E;
    simpl; [|discriminate].
  destruct (amplify_monotone a E) as (a' & -> & Ha). simpl.
  intros [= <-]. eexists. split; [reflexivity|].
  set (x := average (weighted_totals w s)) in *.
  set (x' := average (weighted_totals w s')) in *.
  destruct a.
  - rewrite (Ha eq_refl).
    destruct (py_min_cases (x * 1.3) 1.0) as [[? ->]|[? ->]],
             (py_min_cases (x' * 1.3) 1.0) as [[? ->]|[? ->]]; lra.
  - destruct a'; [|exact Hle].
    destruct (py_min_cases (x' * 1.3) 1.0) as [[? ->]|[? ->]]; lra.
Qed.

End Monotone.

Section Rescaling.
Import RiskScorer.
Local Open Scope Q_scope.

Variable c : Q.
Hypothesis c_pos : 0 < c.
Variable s : gmap string optfloat.






End Rescaling.

Section FusionRelations.
Import RiskScorer Examples.
Local Open Scope Q_scope.

(** C7. In a bundle whose floats lie in [[0,1]], replacing the value of a
    present signal by one whose normalized value ([1 - value] for
    [websiteTrust], the value otherwise) is at least as large does not
    decrease the risk score [calculate] returns. *)
Theorem fusion_monotone (s : gmap string optfloat) (n : string) (v v' : Q)
        (r r' : verdict) :
  unit_valued s ->
  s !! n = Some (PyFloat v) ->
  0 <= v' <= 1 ->
  normalized_value n v <= normalized_value n v' ->
  calculate s = Ok r ->
  calculate (<[n := PyFloat v']> s) = Ok r' ->
  risk_score r <= risk_score r'.
Proof.
  intros Hs Hn Hv' Hle Hr Hr'.
  apply calculate_with_fields in Hr as [Hr _].
  apply calculate_with_fields in Hr' as [Hr' _].
  destruct (fused_score_monotone s n v v' Hs Hn Hv' Hle weights _
              weights_nonneg Hr) as (q' & Hq' & Hqq).
  rewrite Hr' in Hq'. injection Hq' as <-. exact Hqq.
Qed.

(** Raising [urlPhishing] from 0.8 to 0.9 in the two-signal dictionary. *)
Lemma fusion_monotone_witness :
  exists r r',
    calculate two_signals = Ok r
    /\ calculate (<["urlPhishing" := PyFloat 0.9]> two_signals) = Ok r'
    /\ risk_score r <= risk_score r'.
Proof.
  eexists. eexists.
  split; [vm_compute; reflexivity|]. split; [vm_compute; reflexivity|].
  apply (fusion_monotone two_signals "urlPhishing" 0.8 0.9).
  - exact (proj2 two_signals_bundle).
  - vm_compute. reflexivity.
  - split; discriminate.
  - discriminate.
  - vm_compute. reflexivity.
  - vm_compute. reflexivity.
Defined.



End FusionRelations.

(** ** The domain age adapter *)

Section DomainAge.
Import DomainChecker Examples.
Local Open Scope Z_scope.

Variable whois : string -> result whois_entry.
Variable now : Z.
Variable isoformat : Z -> string.

(** The three ways through [check_age]. *)
Lemma check_age_cases (domain : string) :
  let r := check_age whois now isoformat domain in
  (exists w t,
      whois (_clean_domain domain) = Ok w
      /\ first_creation w = Ok (Datetime t)
      /\ r = mk_age (timedelta_days now t)
                    (timedelta_days now t <? new_domain_threshold_days)
                    (Some (isoformat t))
                    (match registrar_attr w with Some v => v | None => None end))
  \/ ((forall w t, whois (_clean_domain domain) = Ok w ->
                   first_creation w <> Ok (Datetime t))
      /\ r = default_result).
Proof.
  unfold check_age, try_body.
  destruct (whois (_clean_domain domain)) as [w|e] eqn:Ew.
  - destruct (first_creation w) as [[| t | str]|e] eqn:Ec; simpl.
    + right. split; [intros w' t [= <-]; congruence | reflexivity].
    + left. exists w, t. repeat split; auto.
      destruct (registrar_attr w); reflexivity.
    + right. split; [intros w' t [= <-]; congruence|].
      destruct (negb (str =? "")%string); reflexivity.
    + right. split; [intros w' t [= <-]; congruence | reflexivity].
  - right. split; [intros w' t; discriminate | reflexivity].
Qed.

End DomainAge.

Section DomainAgeClaims.
Import DomainChecker Examples.
Local Open Scope Z_scope.

(** C9, as stated, fails: a creation date one day after the clock gives
    [age_days = -1] together with [is_new = True]. *)
Lemma check_age_future_creation :
  let r := check_age (future_whois 1700000000000000) 1700000000000000
                     (fun _ => "2023-11-15T22:13:20") "https://www.example.com/" in
  _clean_domain "https://www.example.com/" = "example.com"
  /\ age_days r = -1
  /\ is_new r = true
  /\ ~ (is_new r = true <-> 0 <= age_days r /\ age_days r < 90).
Proof.
  repeat split; try (vm_compute; reflexivity).
  intros [H _]. destruct (H eq_refl) as [H0 _]. vm_compute in H0. congruence.
Qed.

(** C9, amended. [check_age] returns [is_new = True] exactly when it found
    a creation timestamp and [age_days < 90]; with a creation timestamp
    [t] the age is the whole number of days from [t] to the clock, rounded
    down. When the lookup fails or yields no creation timestamp the result
    is [{age_days: -1, is_new: False, registration_date: None,
    registrar: None}]; no exception leaves [check_age]. *)
Theorem check_age_is_new (whois : string -> result whois_entry) (now : Z)
        (isoformat : Z -> string) (domain : string) :
  let r := check_age whois now isoformat domain in
  (is_new r = true <-> is_Some (registration_date r) /\ age_days r < 90)
  /\ (forall w t, whois (_clean_domain domain) = Ok w ->
                  first_creation w = Ok (Datetime t) ->
                  age_days r = (now - t) / microseconds_per_day
                  /\ registration_date r = Some (isoformat t)
                  /\ (is_new r = true <-> age_days r < 90))
  /\ ((forall w t, whois (_clean_domain domain) = Ok w ->
                   first_creation w <> Ok (Datetime t)) ->
      r = mk_age (-1) false None None).
Proof.
  intros r.
  destruct (check_age_cases whois now isoformat domain)
    as [(w & t & Hw & Hc & Hr)|[Hno Hr]]; fold r in Hr; rewrite Hr; simpl.
  - unfold new_domain_threshold_days. rewrite Z.ltb_lt. split; [|split].
    + split; [intros H; split; [eexists; reflexivity | exact H] | intros [_ H]; exact H].
    + intros w' t' Hw' Hc'. rewrite Hw in Hw'. injection Hw' as <-.
      rewrite Hc in Hc'. injection Hc' as <-.
      split; [reflexivity|]. split; [reflexivity|]. apply Z.ltb_lt.
    + intros H. exfalso. eapply H; eauto.
  - split; [|split].
    + split; [discriminate | intros [[x Hx] _]; discriminate].
    + intros w t Hw Hc. exfalso. eapply Hno; eauto.
    + reflexivity.
Qed.

(** The last part for a WHOIS query that fails. *)
Lemma check_age_is_new_witness :
  (forall w t, failing_whois (_clean_domain "example.com") = Ok w ->
               first_creation w <> Ok (Datetime t))
  /\ check_age failing_whois 0 (fun _ => "") "example.com"
     = mk_age (-1) false None None.
Proof.
  assert (H : forall w t, failing_whois (_clean_domain "example.com") = Ok w ->
                          first_creation w <> Ok (Datetime t))
    by (intros w t; discriminate).
  split; [exact H|].
  exact (proj2 (proj2 (check_age_is_new failing_whois 0 (fun _ => "") "example.com")) H).
Defined.

End DomainAgeClaims.

(** ** The email detector *)

Section EmailClaims.
Import EmailPhishingDetector Examples.
Local Open Scope Q_scope.

(** C4, as stated, fails: the subject matches no fear pattern, the score
    stays below 0.5 and the email is not flagged. *)
Lemma urgent_subject_not_flagged :
  let d := analyze None urgent_subject "" None None in
  ~ (urgency (pattern_matches d) <> []
     /\ fear (pattern_matches d) <> []
     /\ 0.5 <= phishing_score d
     /\ is_phishing d = true).
Proof. intros d (_ & _ & _ & H). vm_compute in H. discriminate. Qed.

(** C4, amended. For the subject "URGENT: your account will be suspended"
    with empty body, no sender domain and no classifier, [analyze] finds
    the urgency matches "urgent" and "account will be suspended" (+0.3),
    no fear match and no reward match, and the financial keyword "account"
    (+0.15); the score is 0.45 and [is_phishing] is false. *)
Theorem urgent_subject_analysis :
  let d := analyze None urgent_subject "" None None in
  urgency (pattern_matches d) = ["urgent"; "account will be suspended"]
  /\ fear (pattern_matches d) = []
  /\ reward (pattern_matches d) = []
  /\ financial (pattern_matches d) = ["account"]
  /\ phishing_score d == 0.3 + 0.15
  /\ phishing_score d == 0.45
  /\ is_phishing d = false
  /\ reasons d = ["Urgency tactics detected: urgent, account will be suspended"].
Proof. repeat split; vm_compute; reflexivity. Qed.

End EmailClaims.

(** ** The URL detector *)

Section UrlFeatures.
Import URLPhishingDetector Examples.
Local Open Scope Q_scope.

Variable urlparse : string -> result Urllib.ParseResult.
Variable log2 : Q -> Q.
Variable float_str : Q -> string.

Lemma default_features_dom :
  dom _get_default_features
  = list_to_set ["length"; "num_dots"; "has_ip"; "suspicious_tld"; "domain_entropy"].
Proof. vm_compute. reflexivity. Qed.

(** A URL that parses gets all nineteen features. *)
Lemma extract_features_dom url parsed :
  urlparse url = Ok parsed ->
  dom (_extract_features urlparse log2 url) = list_to_set feature_names.
Proof.
  intros H. unfold _extract_features. rewrite H.
  rewrite !dom_insert_L, dom_empty_L. unfold feature_names.
  apply (bool_decide_unpack _). vm_compute. exact I.
Qed.

(** A URL that does not parse gets the five default entries. *)
Lemma extract_features_default url e :
  urlparse url = Raise e ->
  _extract_features urlparse log2 url = _get_default_features.
Proof. intros H. unfold _extract_features. rewrite H. reflexivity. Qed.

(** On the default entries the third rule of [analyze] has no key to
    read. *)
Lemma score_default_features model :
  score_features float_str model _get_default_features
  = Raise (KeyError "num_subdomains").
Proof. vm_compute. reflexivity. Qed.

(** The entries the rules of [analyze] read, for a URL that parses. *)
Lemma extract_features_parsed url parsed :
  urlparse url = Ok parsed ->
  let f := _extract_features urlparse log2 url in
  let domain := Urllib.netloc parsed in
  f !! "length" = Some (FInt (Str.len url))
  /\ f !! "has_ip"
     = Some (FBool (bool_decide (is_Some (Re.search false ip_pattern domain))))
  /\ f !! "num_subdomains"
     = Some (FInt (if Str.contains "." domain
                   then Z.of_nat (length (Str.split "." domain)) - 2
                   else 0)%Z)
  /\ f !! "num_at" = Some (FInt (Str.count "@" url))
  /\ f !! "num_hyphens" = Some (FInt (Str.count "-" url))
  /\ f !! "suspicious_tld"
     = Some (FBool (existsb
                      (String.eqb
                         (Str.lower (if Str.contains "." domain
                                     then List.last (Str.split "." domain) ""
                                     else "")))
                      suspicious_tlds))
  /\ f !! "tld"
     = Some (FStr (if Str.contains "." domain
                   then List.last (Str.split "." domain) ""
                   else ""))
  /\ f !! "has_punycode" = Some (FBool (Str.contains "xn--" domain))
  /\ f !! "domain_entropy" = Some (FFloat (_calculate_entropy log2 domain)).
Proof.
  intros H f domain. unfold f, _extract_features. rewrite H. fold domain.
  repeat split;
    repeat (rewrite lookup_insert_ne by discriminate); apply lookup_insert_eq.
Qed.

Lemma gt_int (n m : Z) : Qgtb (inject_Z n) (inject_Z m) = (m <? n)%Z.
Proof.
  destruct (m <? n)%Z eqn:E.
  - apply Qgtb_true. rewrite <- Zlt_Qlt. now apply Z.ltb_lt.
  - apply Qgtb_false. rewrite <- Zle_Qle. now apply Z.ltb_ge.
Qed.

(** The rules of [analyze] on a dictionary that has the entries they
    read. *)
Lemma score_features_spec (f : gmap string fvalue)
      (len sub ats hy : Z) (ip st pc : bool) (tld : fvalue) (en : Q) :
  f !! "length" = Some (FInt len) ->
  f !! "has_ip" = Some (FBool ip) ->
  f !! "num_subdomains" = Some (FInt sub) ->
  f !! "num_at" = Some (FInt ats) ->
  f !! "num_hyphens" = Some (FInt hy) ->
  f !! "suspicious_tld" = Some (FBool st) ->
  f !! "tld" = Some tld ->
  f !! "has_punycode" = Some (FBool pc) ->
  f !! "domain_entropy" = Some (FFloat en) ->
  exists d,
    score_features float_str None f = Ok d
    /\ features d = f
    /\ phishing_score d == spec_score len ip sub ats hy st pc en
    /\ is_phishing d = Qgtb (phishing_score d) 0.6.
Proof.
  intros H1 H2 H3 H4 H5 H6 H7 H8 H9.
  unfold score_features, rule_gt, rule_if, item.
  rewrite H1, H2, H3, H4, H5, H6, H7, H8, H9.
  cbn [bind gt_num truthy].
  change 75 with (inject_Z 75). change 3 with (inject_Z 3).
  change (Qgtb (inject_Z ats) 0) with (Qgtb (inject_Z ats) (inject_Z 0)).
  rewrite !gt_int. unfold spec_score.
  destruct (75 <? len)%Z, ip, (3 <? sub)%Z, (0 <? ats)%Z, (3 <? hy)%Z, st, pc,
    (Qgtb en 4.5);
    cbn [bind]; (eexists; split; [reflexivity|]);
    (split; [reflexivity|]); (split; [|reflexivity]);
    cbn [phishing_score]; rewrite py_min_spec; vm_compute; reflexivity.
Qed.

End UrlFeatures.

Section UrlClaims.
Import URLPhishingDetector Examples.
Local Open Scope Q_scope.



(** C3. A URL that parses gets all nineteen features. On a parse failure
    [_extract_features] itself raises nothing, but what it returns is the
    five-entry dictionary of [_get_default_features], without
    [num_subdomains], [num_at], [num_hyphens] or [has_punycode], and
    [analyze] then raises [KeyError]; "http://[" is such a URL. *)
Theorem extract_features_default_is_partial
        (urlparse : string -> result Urllib.ParseResult)
        (log2 : Q -> Q) (float_str : Q -> string)
        (model : option (list fvalue -> result Q)) :
  (forall url parsed, urlparse url = Ok parsed ->
     dom (_extract_features urlparse log2 url) = list_to_set feature_names)
  /\ (forall url e, urlparse url = Raise e ->
        _extract_features urlparse log2 url = _get_default_features
        /\ analyze urlparse log2 float_str model url
           = Raise (KeyError "num_subdomains"))
  /\ dom _get_default_features
     = list_to_set ["length"; "num_dots"; "has_ip"; "suspicious_tld"; "domain_entropy"]
  /\ ("num_subdomains" ∉ dom _get_default_features)
  /\ (forall validate,
        Urllib.urlparse validate bad_url = Raise ValueError
        /\ analyze (Urllib.urlparse validate) log2 float_str model bad_url
           = Raise (KeyError "num_subdomains")).
Proof.
  split; [|split; [|split; [|split]]].
  - apply extract_features_dom.
  - intros url e H. unfold analyze.
    rewrite (extract_features_default urlparse log2 url e H).
    split; [reflexivity | apply score_default_features].
  - apply default_features_dom.
  - rewrite default_features_dom. apply (bool_decide_unpack _). vm_compute. exact I.
  - intros validate. assert (H : Urllib.urlparse validate bad_url = Raise ValueError)
      by (vm_compute; reflexivity).
    split; [exact H|]. unfold analyze.
    rewrite (extract_features_default _ log2 _ _ H).
    apply score_default_features.
Qed.

(** The second part at "http://[", with the model of [urlparse]. *)
Lemma extract_features_default_is_partial_witness :
  Urllib.urlparse (fun _ => Ok tt) bad_url = Raise ValueError
  /\ analyze (Urllib.urlparse (fun _ => Ok tt)) floor_log2 (fun _ => "") None bad_url
     = Raise (KeyError "num_subdomains").
Proof.
  assert (H : Urllib.urlparse (fun _ => Ok tt) bad_url = Raise ValueError)
    by (vm_compute; reflexivity).
  split; [exact H|].
  exact (proj2 (proj1 (proj2 (extract_features_default_is_partial
                                (Urllib.urlparse (fun _ => Ok tt)) floor_log2
                                (fun _ => "") None)) bad_url ValueError H)).
Defined.



End UrlClaims.

(** * Further properties *)

(** ** The risk fusion engine: when it returns, and what it reads *)

Section FusionReturns.
Import RiskScorer Examples.
Local Open Scope Q_scope.

Lemma gt_float_default_ok (s : gmap string optfloat) (k : string) (c : Q) :
  s !! k <> Some PyNone ->
  exists b, gt_float (dict_get_default s k 0) c = Ok b.
Proof.
  unfold dict_get_default. destruct (s !! k) as [[|q]|]; simpl; intros H.
  - congruence.
  - eauto.
  - eauto.
Qed.

Lemma generate_explanation_ok (s : gmap string optfloat) (level : string) :
  level = "high" \/ level = "medium" ->
  s !! "financialIntent" <> Some PyNone ->
  s !! "upiScam" <> Some PyNone ->
  s !! "otpMisuse" <> Some PyNone ->
  s !! "urlPhishing" <> Some PyNone ->
  exists e, _generate_explanation level s = Ok e.
Proof.
  intros Hl Hfi Hupi Hotp Hurl.
  destruct (gt_float_default_ok s _ 0.5 Hfi) as [b1 E1].
  destruct (gt_float_default_ok s _ 0.7 Hupi) as [b2 E2].
  destruct (gt_float_default_ok s _ 0.7 Hotp) as [b3 E3].
  destruct (gt_float_default_ok s _ 0.7 Hurl) as [b4 E4].
  unfold _generate_explanation.
  destruct Hl as [-> | ->]; simpl.
  - rewrite E2. simpl. destruct b2; simpl; [eauto|].
    rewrite E3. simpl. destruct b3; simpl; [eauto|].
    rewrite E4. simpl. destruct b4; simpl; eauto.
  - rewrite E1. simpl. eauto.
Qed.

Lemma calculate_returns_if (s : gmap string optfloat) :
  s !! "financialIntent" <> Some PyNone ->
  s !! "upiScam" <> Some PyNone ->
  s !! "otpMisuse" <> Some PyNone ->
  s !! "urlPhishing" <> Some PyNone ->
  exists v, calculate s = Ok v.
Proof.
  intros Hfi Hupi Hotp Hurl. unfold calculate, calculate_with, fused_score.
  destruct (gt_float_default_ok s _ 0.5 Hfi) as [b1 ->]. simpl.
  destruct (generate_explanation_ok s "high" (or_introl eq_refl)
              Hfi Hupi Hotp Hurl) as [eh ->].
  destruct (generate_explanation_ok s "medium" (or_intror eq_refl)
              Hfi Hupi Hotp Hurl) as [em ->].
  match goal with |- context [Qgeb ?x 0.7] => destruct (Qgeb x 0.7) end;
    [simpl; eauto|].
  match goal with |- context [Qgeb ?x 0.4] => destruct (Qgeb x 0.4) end;
    simpl; eauto.
Qed.

Lemma calculate_raises_fi (s : gmap string optfloat) :
  s !! "financialIntent" = Some PyNone -> calculate s = Raise TypeError.
Proof.
  intros H. unfold calculate, calculate_with, fused_score, dict_get_default.
  rewrite H. reflexivity.
Qed.

(** X1. [calculate] returns a verdict whenever none of [financialIntent],
    [upiScam], [otpMisuse] and [urlPhishing] is present with value [None]
    (each may be missing or hold a float, and [websiteTrust] may be
    anything); and it raises [TypeError] whenever [financialIntent] is
    present with value [None]. *)
Theorem calculate_returns (s : gmap string optfloat) :
  (s !! "financialIntent" <> Some PyNone ->
   s !! "upiScam" <> Some PyNone ->
   s !! "otpMisuse" <> Some PyNone ->
   s !! "urlPhishing" <> Some PyNone ->
   exists v, calculate s = Ok v)
  /\ (s !! "financialIntent" = Some PyNone -> calculate s = Raise TypeError).
Proof. split; [apply calculate_returns_if | apply calculate_raises_fi]. Qed.

(** The first part at the two-signal dictionary. *)
Lemma calculate_returns_witness : exists v, calculate two_signals = Ok v.
Proof.
  apply (proj1 (calculate_returns two_signals)); vm_compute; discriminate.
Defined.

(** X2. A verdict's level follows its score: "high" from 0.7, "medium"
    from 0.4 to below 0.7, "low" below 0.4; the two boundaries belong to
    the upper band, and a "low" verdict always carries the fixed safe-page
    text. *)
Theorem risk_level_bands (s : gmap string optfloat) (v : verdict) :
  calculate s = Ok v ->
  (risk_level v = "high" /\ 0.7 <= risk_score v)
  \/ (risk_level v = "medium" /\ 0.4 <= risk_score v < 0.7)
  \/ (risk_level v = "low" /\ risk_score v < 0.4
      /\ explanation v = "This page appears safe based on our analysis.").
Proof.
  unfold calculate, calculate_with.
  destruct (fused_score weights s) as [score|]; simpl; [|discriminate].
  destruct (Qgeb score 0.7) eqn:E7.
  - destruct (_generate_explanation "high" s); simpl; [|discriminate].
    intros [= <-]. left. simpl. split; [reflexivity|]. now apply Qgeb_true.
  - destruct (Qgeb score 0.4) eqn:E4.
    + destruct (_generate_explanation "medium" s); simpl; [|discriminate].
      intros [= <-]. right. left. simpl. split; [reflexivity|].
      split; [now apply Qgeb_true | now apply Qgeb_false].
    + simpl. intros [= <-]. right. right. simpl.
      split; [reflexivity|]. split; [now apply Qgeb_false | reflexivity].
Qed.

Lemma risk_level_bands_witness :
  exists v, calculate two_signals = Ok v
    /\ ((risk_level v = "high" /\ 0.7 <= risk_score v)
        \/ (risk_level v = "medium" /\ 0.4 <= risk_score v < 0.7)
        \/ (risk_level v = "low" /\ risk_score v < 0.4
            /\ explanation v = "This page appears safe based on our analysis.")).
Proof.
  eexists. split; [vm_compute; reflexivity|].
  apply (risk_level_bands two_signals). vm_compute. reflexivity.
Defined.

Lemma dict_get_insert_ne (s : gmap string optfloat) k x n :
  k <> n -> dict_get (<[k := x]> s) n = dict_get s n.
Proof. intros H. unfold dict_get. now rewrite lookup_insert_ne. Qed.

Lemma dict_get_default_insert_ne (s : gmap string optfloat) k x n c :
  k <> n -> dict_get_default (<[k := x]> s) n c = dict_get_default s n c.
Proof. intros H. unfold dict_get_default. now rewrite lookup_insert_ne. Qed.

Lemma weighted_totals_ext (s s' : gmap string optfloat) (w : list (string * Q)) :
  (forall item, In item w -> dict_get s' (fst item) = dict_get s (fst item)) ->
  weighted_totals w s' = weighted_totals w s.
Proof.
  unfold weighted_totals. generalize (0.0, 0.0). induction w as [|item w IH];
    intros acc H; simpl; [reflexivity|].
  assert (Hitem : accumulate s' acc item = accumulate s acc item).
  { pose proof (H item (or_introl eq_refl)) as Hi.
    destruct acc, item as [name wt]. simpl in *. rewrite Hi. reflexivity. }
  rewrite Hitem. apply IH. intros item' Hin. apply H. now right.
Qed.

(** Two dictionaries that agree where [calculate] reads them, up to the
    confidence. *)
Lemma calculate_ext (s s' : gmap string optfloat) :
  (forall n, In n signal_names -> dict_get s' n = dict_get s n) ->
  (forall n c, In n ["financialIntent"; "upiScam"; "otpMisuse"; "urlPhishing"] ->
               dict_get_default s' n c = dict_get_default s n c) ->
  fused_score weights s' = fused_score weights s
  /\ forall level, _generate_explanation level s' = _generate_explanation level s.
Proof.
  intros Hget Hdef. split.
  - unfold fused_score. rewrite (weighted_totals_ext s s').
    + rewrite Hdef by (simpl; auto). reflexivity.
    + intros item Hin. apply Hget. unfold signal_names. now apply in_map.
  - intros level. unfold _generate_explanation.
    rewrite !Hdef by (simpl; auto). reflexivity.
Qed.

(** X3. A key outside the five signal names never changes the risk score,
    the level or the explanation, nor whether [calculate] raises: only the
    confidence can differ. *)
Theorem unknown_key_ignored (s : gmap string optfloat) (k : string) (x : optfloat) :
  ~ In k signal_names ->
  match calculate (<[k := x]> s), calculate s with
  | Ok v', Ok v =>
      risk_score v' = risk_score v /\ risk_level v' = risk_level v
      /\ explanation v' = explanation v
  | Raise e', Raise e => e' = e
  | _, _ => False
  end.
Proof.
  intros Hk.
  assert (Hne : forall n, In n signal_names -> k <> n)
    by (intros n Hn ->; contradiction).
  destruct (calculate_ext s (<[k := x]> s)) as [Hf He].
  - intros n Hn. apply dict_get_insert_ne. auto.
  - intros n c Hn. apply dict_get_default_insert_ne. apply Hne.
    unfold signal_names, weights. simpl in *. intuition.
  - unfold calculate, calculate_with. rewrite Hf, !He.
    destruct (fused_score weights s) as [score|]; simpl; [|reflexivity].
    match goal with
    | |- match bind ?m _ with _ => _ end => destruct m as [[level expl]|]
    end; simpl; auto.
Qed.

Lemma unknown_key_ignored_witness :
  ~ In "pageRank" signal_names
  /\ match calculate (<["pageRank" := PyFloat 0.5]> two_signals),
           calculate two_signals with
     | Ok v', Ok v =>
         risk_score v' = risk_score v /\ risk_level v' = risk_level v
         /\ explanation v' = explanation v
     | Raise e', Raise e => e' = e
     | _, _ => False
     end.
Proof.
  assert (H : ~ In "pageRank" signal_names)
    by (unfold signal_names, weights; simpl; intuition discriminate).
  split; [exact H|]. exact (unknown_key_ignored two_signals "pageRank" (PyFloat 0.5) H).
Defined.

(** X4. For a key that is not one of [financialIntent], [upiScam],
    [otpMisuse], [urlPhishing] (so for [websiteTrust] in particular), the
    value [None] and a missing key give the same result of [calculate]. *)
Theorem None_is_missing (s : gmap string optfloat) (k : string) :
  ~ In k ["financialIntent"; "upiScam"; "otpMisuse"; "urlPhishing"] ->
  calculate (<[k := PyNone]> s) = calculate (delete k s).
Proof.
  intros Hk.
  destruct (calculate_ext (delete k s) (<[k := PyNone]> s)) as [Hf He].
  - intros n _. unfold dict_get. destruct (decide (k = n)) as [<-|Hne].
    + now rewrite lookup_insert_eq, lookup_delete_eq.
    + now rewrite lookup_insert_ne, lookup_delete_ne.
  - intros n c Hn. unfold dict_get_default.
    assert (k <> n) by (intros ->; contradiction).
    now rewrite lookup_insert_ne, lookup_delete_ne.
  - unfold calculate, calculate_with. rewrite Hf, !He.
    rewrite !available_signals_size. unfold not_None_entries.
    rewrite map_filter_insert_False by (simpl; discriminate).
    reflexivity.
Qed.

Lemma None_is_missing_witness :
  calculate (<["websiteTrust" := PyNone]> two_signals)
  = calculate (delete "websiteTrust" two_signals).
Proof.
  apply (None_is_missing two_signals "websiteTrust").
  simpl. intuition discriminate.
Defined.

End FusionReturns.

(** ** Strings *)

Section StrFacts.
Import Facts.
Local Open Scope Z_scope.

Lemma append_cons (c : ascii) (a b : string) :
  (String c a ++ b)%string = String c (a ++ b)%string.
Proof. reflexivity. Qed.

Lemma append_nil (b : string) : ("" ++ b)%string = b.
Proof. reflexivity. Qed.

Lemma prefix_app (sub s : string) :
  String.prefix sub s = true <-> exists b, s = (sub ++ b)%string.
Proof.
  revert s. induction sub as [|c sub IH]; intros s.
  - split; [intros _; exists s; reflexivity | destruct s; reflexivity].
  - destruct s as [|c' s].
    + split; [discriminate | intros [b Hb]; rewrite append_cons in Hb; discriminate].
    + simpl. destruct (ascii_dec c c') as [<-|Hne].
      * rewrite IH. split; intros [b Hb]; exists b; rewrite append_cons in *;
          congruence.
      * split; [discriminate|]. intros [b Hb]. rewrite append_cons in Hb. congruence.
Qed.

Lemma contains_unfold (sub s : string) :
  Str.contains sub s
  = if String.prefix sub s then true
    else match s with
         | EmptyString => false
         | String _ s' => Str.contains sub s'
         end.
Proof. destruct s; reflexivity. Qed.

(** [sub in s] holds exactly when [s] is [a + sub + b] for some [a], [b]. *)
Lemma contains_app (sub s : string) :
  Str.contains sub s = true <-> exists a b, s = (a ++ sub ++ b)%string.
Proof.
  induction s as [|c s IH].
  - rewrite contains_unfold. destruct (String.prefix sub "") eqn:E.
    + apply prefix_app in E as [b Hb]. split; [|reflexivity].
      intros _. exists "", b. exact Hb.
    + split; [discriminate|]. intros (a & b & H).
      destruct a; [|rewrite append_cons in H; discriminate].
      rewrite append_nil in H.
      assert (String.prefix sub "" = true) by (apply prefix_app; eauto).
      congruence.
  - rewrite contains_unfold. destruct (String.prefix sub (String c s)) eqn:E.
    + apply prefix_app in E as [b Hb]. split; [|reflexivity].
      intros _. exists "", b. exact Hb.
    + rewrite IH. split.
      * intros (a & b & ->). exists (String c a), b. reflexivity.
      * intros (a & b & H). destruct a as [|c' a].
        -- rewrite append_nil in H.
           assert (String.prefix sub (String c s) = true)
             by (apply prefix_app; eauto).
           congruence.
        -- rewrite append_cons in H. injection H as -> ->. eauto.
Qed.

Lemma count_nonneg (c : ascii) (s : string) : 0 <= Str.count c s.
Proof. induction s as [|c' s IH]; simpl; [lia|]. destruct (Ascii.eqb c c'); lia. Qed.

Lemma prefix_char (c c' : ascii) (s : string) :
  String.prefix (String c "") (String c' s) = Ascii.eqb c c'.
Proof.
  simpl. destruct (ascii_dec c c') as [<-|Hne].
  - rewrite Ascii.eqb_refl. destruct s; reflexivity.
  - symmetry. now apply Ascii.eqb_neq.
Qed.

Lemma contains_char (c : ascii) (s : string) :
  Str.contains (String c "") s = true <-> 0 < Str.count c s.
Proof.
  induction s as [|c' s IH]; rewrite contains_unfold.
  - simpl. split; [discriminate | lia].
  - rewrite prefix_char. pose proof (count_nonneg c s).
    change (Str.count c (String c' s))
      with ((if Ascii.eqb c c' then 1 else 0) + Str.count c s).
    destruct (Ascii.eqb c c'); [split; [lia | reflexivity]|].
    rewrite IH. lia.
Qed.

(** [s.split(c)] has one more piece than [s] has occurrences of [c]. *)
Lemma split_length (c : ascii) (s : string) :
  Z.of_nat (length (Str.split c s)) = Str.count c s + 1.
Proof.
  induction s as [|c' s IH]; simpl; [reflexivity|].
  pose proof (count_nonneg c s).
  destruct (Ascii.eqb c c').
  - simpl length. lia.
  - destruct (Str.split c s) as [|piece rest]; cbn [length] in *; lia.
Qed.

(** The first piece of a split has no separator, and no more of any other
    character than the whole string. *)
Lemma split_first (c c2 : ascii) (s : string) :
  Str.count c (hd "" (Str.split c s)) = 0
  /\ Str.count c2 (hd "" (Str.split c s)) <= Str.count c2 s.
Proof.
  induction s as [|c' s [IH1 IH2]]; simpl; [lia|].
  pose proof (count_nonneg c2 s).
  destruct (Ascii.eqb c c') eqn:E; simpl.
  - destruct (Ascii.eqb c2 c'); lia.
  - destruct (Str.split c s) as [|piece rest]; simpl in *.
    + rewrite E. destruct (Ascii.eqb c2 c'); lia.
    + rewrite E. destruct (Ascii.eqb c2 c'); lia.
Qed.

Lemma lstrip_count (c : ascii) (s : string) :
  Str.count c (Str.lstrip s) <= Str.count c s.
Proof.
  induction s as [|c' s IH]; simpl; [lia|].
  destruct (Str.is_space c'); simpl; destruct (Ascii.eqb c c'); lia.
Qed.

Lemma rstrip_count (c : ascii) (s : string) :
  Str.count c (Str.rstrip s) <= Str.count c s.
Proof.
  induction s as [|c' s IH]; simpl; [lia|].
  pose proof (count_nonneg c s).
  destruct (Str.rstrip s) as [|c'' t]; simpl in *.
  - destruct (Str.is_space c'); simpl; destruct (Ascii.eqb c c'); lia.
  - destruct (Ascii.eqb c c'); lia.
Qed.

Lemma rstrip_idempotent (s : string) : Str.rstrip (Str.rstrip s) = Str.rstrip s.
Proof.
  induction s as [|c s IH]; simpl; [reflexivity|].
  destruct (Str.rstrip s) as [|c' t] eqn:E.
  - destruct (Str.is_space c) eqn:Ec; simpl; [reflexivity|]. now rewrite Ec.
  - simpl in *. rewrite IH. reflexivity.
Qed.

Lemma lstrip_trimmed (s : string) : trimmed_left (Str.lstrip s).
Proof.
  induction s as [|c s IH]; simpl; [exact I|].
  destruct (Str.is_space c) eqn:E; [exact IH | exact E].
Qed.

Lemma rstrip_trimmed (s : string) : trimmed_left s -> trimmed_left (Str.rstrip s).
Proof.
  destruct s as [|c s]; simpl; [auto|]. intros H.
  destruct (Str.rstrip s); [rewrite H|]; exact H.
Qed.

Lemma lstrip_id (s : string) : trimmed_left s -> Str.lstrip s = s.
Proof. destruct s as [|c s]; simpl; [auto|]. now intros ->. Qed.

Lemma strip_idempotent (s : string) : Str.strip (Str.strip s) = Str.strip s.
Proof.
  unfold Str.strip.
  rewrite (lstrip_id (Str.rstrip (Str.lstrip s)))
    by apply rstrip_trimmed, lstrip_trimmed.
  apply rstrip_idempotent.
Qed.

Lemma strip_count (c : ascii) (s : string) :
  Str.count c (Str.strip s) <= Str.count c s.
Proof.
  unfold Str.strip. pose proof (rstrip_count c (Str.lstrip s)).
  pose proof (lstrip_count c s). lia.
Qed.

End StrFacts.

(** ** The domain age adapter: the cleaned domain, the 90-day window *)

Section DomainFacts.
Import DomainChecker Examples.
Local Open Scope Z_scope.

(** X5. Whatever string comes in, the domain handed to WHOIS has no [/], no
    [:] and no surrounding white space (stripping it again changes
    nothing). *)
Theorem clean_domain_shape (domain : string) :
  Str.count "/" (_clean_domain domain) = 0
  /\ Str.count ":" (_clean_domain domain) = 0
  /\ Str.strip (_clean_domain domain) = _clean_domain domain.
Proof.
  unfold _clean_domain.
  set (d1 := Str.replace "www." "" _).
  set (d2 := if Str.contains "/" d1 then hd "" (Str.split "/" d1) else d1).
  set (d3 := if Str.contains ":" d2 then hd "" (Str.split ":" d2) else d2).
  assert (H2 : Str.count "/" d2 = 0).
  { unfold d2. destruct (Str.contains "/" d1) eqn:E.
    - apply (split_first "/" "/").
    - pose proof (count_nonneg "/" d1).
      destruct (Z.eq_dec (Str.count "/" d1) 0) as [H0|H0]; [exact H0|].
      assert (Str.contains "/" d1 = true) by (apply contains_char; lia).
      congruence. }
  assert (H3 : Str.count "/" d3 = 0 /\ Str.count ":" d3 = 0).
  { unfold d3. destruct (Str.contains ":" d2) eqn:E.
    - pose proof (split_first ":" "/" d2) as [_ Ha].
      pose proof (split_first ":" ":" d2) as [Hb _].
      pose proof (count_nonneg "/" (hd "" (Str.split ":" d2))). lia.
    - split; [exact H2|]. pose proof (count_nonneg ":" d2).
      destruct (Z.eq_dec (Str.count ":" d2) 0) as [H0|H0]; [exact H0|].
      assert (Str.contains ":" d2 = true) by (apply contains_char; lia).
      congruence. }
  pose proof (strip_count "/" d3). pose proof (strip_count ":" d3).
  pose proof (count_nonneg "/" (Str.strip d3)).
  pose proof (count_nonneg ":" (Str.strip d3)).
  split; [lia|]. split; [lia|]. apply strip_idempotent.
Qed.

(** X6. With a creation timestamp [t], [is_new] holds exactly while fewer
    than 90 whole days have elapsed on the clock, [age_days] is
    non-negative exactly when [t] is not in the future, and a domain that
    is not new at some time is not new at any later time. *)
Theorem is_new_window (whois : string -> result whois_entry) (isoformat : Z -> string)
        (domain : string) (w : whois_entry) (t : Z) :
  whois (_clean_domain domain) = Ok w ->
  first_creation w = Ok (Datetime t) ->
  forall now,
    let r := check_age whois now isoformat domain in
    (is_new r = true <-> now - t < 90 * microseconds_per_day)
    /\ (0 <= age_days r <-> t <= now)
    /\ (forall later, now <= later ->
          is_new (check_age whois later isoformat domain) = true ->
          is_new r = true).
Proof.
  intros Hw Hc.
  assert (Hr : forall now,
             check_age whois now isoformat domain
             = mk_age (timedelta_days now t)
                      (timedelta_days now t <? new_domain_threshold_days)
                      (Some (isoformat t))
                      (match registrar_attr w with Some v => v | None => None end)).
  { intros now. destruct (check_age_cases whois now isoformat domain)
      as [(w' & t' & Hw' & Hc' & Hr)|[Hno _]].
    - rewrite Hw in Hw'. injection Hw' as <-. rewrite Hc in Hc'.
      injection Hc' as <-. exact Hr.
    - exfalso. eapply Hno; eauto. }
  assert (Hnew : forall now,
             (timedelta_days now t <? new_domain_threshold_days) = true
             <-> now - t < 90 * microseconds_per_day).
  { intros now. unfold timedelta_days, new_domain_threshold_days.
    rewrite Z.ltb_lt. unfold microseconds_per_day. split; intros H.
    - destruct (Z.lt_ge_cases (now - t) (90 * (86400 * 1000000))) as [Hlt|Hge];
        [exact Hlt|].
      assert (90 <= (now - t) / (86400 * 1000000))
        by (apply Z.div_le_lower_bound; lia).
      lia.
    - apply Z.div_lt_upper_bound; lia. }
  intros now r. unfold r. rewrite Hr. simpl. split; [apply Hnew|]. split.
  - unfold timedelta_days, microseconds_per_day. split; intros H.
    + destruct (Z.le_gt_cases t now) as [Hle|Hgt]; [exact Hle|].
      assert ((now - t) / (86400 * 1000000) < 0)
        by (apply Z.div_lt_upper_bound; lia). lia.
    + apply Z.div_pos; lia.
  - intros later Hle. rewrite Hr. simpl. rewrite !Hnew. lia.
Qed.

Lemma is_new_window_witness :
  let r := check_age (future_whois 0) 0 (fun _ => "") "example.com" in
  (is_new r = true <-> 0 - (0 + microseconds_per_day) < 90 * microseconds_per_day)
  /\ (0 <= age_days r <-> 0 + microseconds_per_day <= 0)
  /\ (forall later, 0 <= later ->
        is_new (check_age (future_whois 0) later (fun _ => "") "example.com") = true ->
        is_new r = true).
Proof.
  exact (is_new_window (future_whois 0) (fun _ => "") "example.com" _ _
           eq_refl eq_refl 0).
Defined.

End DomainFacts.

(** ** The email detector: score, matches, sender check *)

Section EmailFacts.
Import EmailPhishingDetector Facts Examples.
Local Open Scope Q_scope.

Lemma find_patterns_test (text : string) (patterns : list Re.regex) :
  match _find_patterns text patterns with
  | [] => matches_any text patterns = false
  | _ :: _ => matches_any text patterns = true
  end.
Proof.
  unfold _find_patterns, matches_any.
  induction patterns as [|p ps IH]; simpl; [reflexivity|].
  destruct (Re.search true p text) as [m|]; simpl; [reflexivity|].
  exact IH.
Qed.

Lemma filter_test {A} (f : A -> bool) (l : list A) :
  match List.filter f l with
  | [] => existsb f l = false
  | _ :: _ => existsb f l = true
  end.
Proof.
  induction l as [|x l IH]; simpl; [reflexivity|].
  destruct (f x); simpl; [reflexivity | exact IH].
Qed.

(** The score before and after the clamp. *)
Lemma analyze_score (classifier : option (string -> result (string * Q)))
      (subject body : string) (sender sender_domain : option string) :
  phishing_score (analyze classifier subject body sender sender_domain)
  == Qmin 1 (points (matches_any (email_text subject body) urgency_patterns) 0.3
             + points (matches_any (email_text subject body) fear_patterns) 0.3
             + points (matches_any (email_text subject body) reward_patterns) 0.25
             + points (mentions_keyword (email_text subject body)) 0.15
             + points (mismatch_found (email_text subject body) sender_domain) 0.4
             + points (ml_negative classifier subject body) 0.2)
  /\ is_phishing (analyze classifier subject body sender sender_domain)
     = Qgtb (phishing_score (analyze classifier subject body sender sender_domain))
            0.5.
Proof.
  set (text := email_text subject body).
  unfold analyze, mentions_keyword, mismatch_found, ml_negative.
  change (Str.lower (subject ++ " " ++ body)) with text.
  pose proof (find_patterns_test text urgency_patterns) as H1.
  pose proof (find_patterns_test text fear_patterns) as H2.
  pose proof (find_patterns_test text reward_patterns) as H3.
  pose proof (filter_test (fun kw => Str.contains kw text) bank_keywords) as H4.
  destruct (_find_patterns text urgency_patterns); rewrite H1; clear H1;
  destruct (_find_patterns text fear_patterns); rewrite H2; clear H2;
  destruct (_find_patterns text reward_patterns); rewrite H3; clear H3;
  destruct (List.filter _ bank_keywords); rewrite H4; clear H4;
  (destruct sender_domain as [dm|];
   [destruct (String.eqb dm ""); cbn [negb andb];
    [|destruct (_check_sender_domain_mismatch text dm)]|]);
  (destruct classifier as [pipeline|];
   [destruct (pipeline _) as [[label ml_score]|];
    [destruct (String.eqb label "NEGATIVE" && Qgtb ml_score 0.7)|]|]);
  (split; [cbn [phishing_score]; rewrite py_min_spec; vm_compute; reflexivity
          | reflexivity]).
Qed.

(** X7. The email score is the sum, clamped at 1, of 0.3 for an urgency
    match, 0.3 for a fear match, 0.25 for a reward match, 0.15 for a
    financial keyword, 0.4 for a sender-domain mismatch and 0.2 for a
    NEGATIVE model answer above 0.7; it lies in [[0,1]], the email is
    flagged exactly when it exceeds 0.5, and never on fewer than two of
    the six indicators. *)
Theorem email_additive_score
        (classifier : option (string -> result (string * Q)))
        (subject body : string) (sender sender_domain : option string) :
  let d := analyze classifier subject body sender sender_domain in
  let text := email_text subject body in
  let tests :=
    [ matches_any text urgency_patterns; matches_any text fear_patterns;
      matches_any text reward_patterns; mentions_keyword text;
      mismatch_found text sender_domain;
      ml_negative classifier subject body ] in
  phishing_score d
  == Qmin 1 (points (matches_any text urgency_patterns) 0.3
             + points (matches_any text fear_patterns) 0.3
             + points (matches_any text reward_patterns) 0.25
             + points (mentions_keyword text) 0.15
             + points (mismatch_found text sender_domain) 0.4
             + points (ml_negative classifier subject body) 0.2)
  /\ 0 <= phishing_score d <= 1
  /\ (is_phishing d = true <-> 0.5 < phishing_score d)
  /\ (is_phishing d = true -> (2 <= fired tests)%nat).
Proof.
  intros d text tests.
  destruct (analyze_score classifier subject body sender sender_domain)
    as [Hs Hq].
  fold d text in Hs, Hq.
  assert (Hp : is_phishing d = true <-> 0.5 < phishing_score d)
    by (rewrite Hq; apply Qgtb_true).
  split; [exact Hs|]. split; [|split; [exact Hp|]].
  - rewrite Hs.
    destruct (matches_any text urgency_patterns),
             (matches_any text fear_patterns),
             (matches_any text reward_patterns), (mentions_keyword text),
             (mismatch_found text sender_domain),
             (ml_negative classifier subject body);
      split; vm_compute; discriminate.
  - rewrite Hp, Hs. unfold tests.
    destruct (matches_any text urgency_patterns),
             (matches_any text fear_patterns),
             (matches_any text reward_patterns), (mentions_keyword text),
             (mismatch_found text sender_domain),
             (ml_negative classifier subject body);
      intros H; vm_compute in H; try discriminate; vm_compute; lia.
Qed.

(** The last part on an email with an urgency match, a fear match and a
    financial keyword. *)
Lemma email_additive_score_witness :
  let d := analyze None "Your account has been blocked" "" None None in
  let text := email_text "Your account has been blocked" "" in
  is_phishing d = true
  /\ (2 <= fired [ matches_any text urgency_patterns;
                   matches_any text fear_patterns;
                   matches_any text reward_patterns; mentions_keyword text;
                   mismatch_found text None;
                   ml_negative None "Your account has been blocked" "" ])%nat.
Proof.
  split; [vm_compute; reflexivity|].
  apply (proj2 (proj2 (proj2
           (email_additive_score None "Your account has been blocked" ""
                                 None None)))).
  vm_compute. reflexivity.
Defined.

(** [_check_sender_domain_mismatch] over any table of banks. *)
Lemma first_mismatch_None (text d : string) (l : list (string * list string)) :
  first_mismatch text d l = None
  <-> forall bank valids, In (bank, valids) l ->
        Str.contains bank text = true ->
        exists valid, In valid valids /\ Str.contains valid d = true.
Proof.
  induction l as [|[bank valids] l IH]; simpl.
  - split; [intros _ ? ? [] | reflexivity].
  - destruct (Str.contains bank text) eqn:Eb; simpl.
    + destruct (existsb _ valids) eqn:Ev; simpl.
      * rewrite IH. apply existsb_exists in Ev. split.
        -- intros H b v [[= <- <-]|Hin] Hc; eauto.
        -- intros H b v Hin Hc. apply (H b v); auto.
      * split; [discriminate|]. intros H.
        destruct (H bank valids (or_introl eq_refl) Eb) as (valid & Hin & Hv).
        assert (existsb (fun valid => Str.contains valid d) valids = true)
          by (apply existsb_exists; eauto).
        congruence.
    + rewrite IH. split.
      * intros H b v [[= <- <-]|Hin] Hc; [congruence | eauto].
      * intros H b v Hin Hc. apply (H b v); auto.
Qed.

Lemma first_mismatch_Some (text d : string) (l : list (string * list string))
      (m : mismatch_t) :
  first_mismatch text d l = Some m ->
  exists bank valids,
    In (bank, valids) l
    /\ Str.contains bank text = true
    /\ (forall valid, In valid valids -> Str.contains valid d = false)
    /\ claimed m = Str.upper bank /\ actual m = d /\ expected m = hd "" valids.
Proof.
  induction l as [|[bank valids] l IH]; simpl; [discriminate|].
  destruct (Str.contains bank text) eqn:Eb; simpl.
  - destruct (existsb _ valids) eqn:Ev; simpl.
    + intros H. destruct (IH H) as (b & v & Hin & Hrest).
      exists b, v. split; [now right | exact Hrest].
    + intros [= <-]. exists bank, valids. split; [now left|]. split; [exact Eb|].
      split; [|simpl; auto].
      intros valid Hin. destruct (Str.contains valid d) eqn:E; [|reflexivity].
      assert (existsb (fun valid => Str.contains valid d) valids = true)
        by (apply existsb_exists; eauto).
      congruence.
  - intros H. destruct (IH H) as (b & v & Hin & Hrest).
    exists b, v. split; [now right | exact Hrest].
Qed.

(** X8. The sender check reports no mismatch exactly when every bank named
    in the text has one of its domains occurring somewhere inside the
    sender domain; a reported mismatch names, in upper case, a bank of the
    table that the text mentions and none of whose domains occurs in the
    sender domain. Since the test is a substring test, a sender domain that
    merely embeds the bank's domain ([a + valid + b]) passes. *)
Theorem sender_mismatch_spec (text d : string) :
  (_check_sender_domain_mismatch text d = None
   <-> forall bank valids, In (bank, valids) banks ->
         Str.contains bank text = true ->
         exists valid, In valid valids /\ Str.contains valid d = true)
  /\ (forall m, _check_sender_domain_mismatch text d = Some m ->
        exists bank valids,
          In (bank, valids) banks
          /\ Str.contains bank text = true
          /\ (forall valid, In valid valids -> Str.contains valid d = false)
          /\ claimed m = Str.upper bank /\ actual m = d
          /\ expected m = hd "" valids)
  /\ (forall bank valids valid a b,
        In (bank, valids) banks -> In valid valids ->
        (forall bank' valids', In (bank', valids') banks ->
           Str.contains bank' text = true -> (bank', valids') = (bank, valids)) ->
        _check_sender_domain_mismatch text (a ++ valid ++ b) = None).
Proof.
  split; [apply first_mismatch_None|]. split; [apply first_mismatch_Some|].
  intros bank valids valid a b Hin Hv Honly.
  apply first_mismatch_None. intros bank' valids' Hin' Hc.
  pose proof (Honly bank' valids' Hin' Hc) as Heq. injection Heq as -> ->.
  exists valid. split; [exact Hv|]. apply contains_app. eauto.
Qed.

Lemma sender_mismatch_spec_witness :
  _check_sender_domain_mismatch "your sbi account" "sbi.co.in.evil.example" = None.
Proof.
  apply (proj2 (proj2 (sender_mismatch_spec "your sbi account" "sbi.co.in.evil.example"))
           "sbi" ["sbi.co.in"] "sbi.co.in" "" ".evil.example").
  - simpl. auto.
  - simpl. auto.
  - intros bank' valids' Hin Hc. simpl in Hin.
    repeat (destruct Hin as [[= <- <-]|Hin]; [try reflexivity; vm_compute in Hc; discriminate|]).
    contradiction.
Defined.

Lemma substring_prefix (n : nat) (s : string) :
  exists b, s = (String.substring 0 n s ++ b)%string.
Proof.
  revert n. induction s as [|c s IH]; intros n.
  - exists "". destruct n; reflexivity.
  - destruct n as [|n]; simpl.
    + exists (String c s). reflexivity.
    + destruct (IH n) as [b Hb]. exists b. rewrite append_cons. congruence.
Qed.

Lemma search_unfold (ic : bool) (r : Re.regex) (s : string) :
  Re.search ic r s
  = match Re.matches ic r s Some with
    | Some rest =>
        Some (String.substring 0 (String.length s - String.length rest) s)
    | None =>
        match s with
        | EmptyString => None
        | String _ s' => Re.search ic r s'
        end
    end.
Proof. destruct s; reflexivity. Qed.

(** What [re.search] returns is a span of the text. *)
Lemma search_span (ic : bool) (r : Re.regex) (s m : string) :
  Re.search ic r s = Some m -> exists a b, s = (a ++ m ++ b)%string.
Proof.
  induction s as [|c s IH]; rewrite search_unfold;
    destruct (Re.matches ic r _ Some) as [rest|].
  - intros [= <-].
    destruct (substring_prefix (String.length "" - String.length rest) "")
      as [b Hb].
    exists "", b. exact Hb.
  - discriminate.
  - intros [= <-].
    destruct (substring_prefix
                (String.length (String c s) - String.length rest) (String c s))
      as [b Hb].
    exists "", b. exact Hb.
  - intros H. destruct (IH H) as (a & b & ->). exists (String c a), b. reflexivity.
Qed.

(** X9. [_find_patterns] returns at most one match per pattern, each an
    actual span of the text, and returns nothing exactly when no pattern
    is found in the text. *)
Theorem find_patterns_spans (text : string) (patterns : list Re.regex) :
  (length (_find_patterns text patterns) <= length patterns)%nat
  /\ (forall m, In m (_find_patterns text patterns) ->
        Str.contains m text = true
        /\ exists pattern, In pattern patterns
                           /\ Re.search true pattern text = Some m)
  /\ (_find_patterns text patterns = []
      <-> forall pattern, In pattern patterns ->
            Re.search true pattern text = None).
Proof.
  unfold _find_patterns. induction patterns as [|p ps (IH1 & IH2 & IH3)]; simpl.
  - split; [lia|]. split; [intros m []|]. split; [intros _ ? [] | reflexivity].
  - destruct (Re.search true p text) as [m0|] eqn:E; simpl.
    + split; [lia|]. split.
      * intros m [<-|Hin].
        -- split; [apply contains_app; eapply search_span; eauto | eauto].
        -- destruct (IH2 m Hin) as [Hc (q & Hq & Hs)]. eauto.
      * split; [discriminate|]. intros H.
        rewrite (H p (or_introl eq_refl)) in E. discriminate.
    + split; [lia|]. split.
      * intros m Hin. destruct (IH2 m Hin) as [Hc (q & Hq & Hs)]. eauto.
      * rewrite IH3. split.
        -- intros H q [<-|Hq]; auto.
        -- intros H q Hq. apply H. now right.
Qed.

(** The match "urgent" in a three-word text. *)
Lemma find_patterns_spans_witness :
  Str.contains "urgent" "urgent action required" = true
  /\ exists pattern, In pattern urgency_patterns
       /\ Re.search true pattern "urgent action required" = Some "urgent".
Proof.
  apply (proj1 (proj2 (find_patterns_spans "urgent action required"
                                           urgency_patterns))).
  vm_compute. left. reflexivity.
Defined.





End EmailFacts.

(** ** The webpage classifier *)

Section WebpageFacts.
Import WebpageClassifier Facts Examples.
Local Open Scope Q_scope.

Lemma count_keywords_bounds (text : string) (keywords : list string) :
  (0 <= _count_keywords text keywords <= Z.of_nat (length keywords))%Z.
Proof.
  unfold _count_keywords.
  assert (H : forall n : Z,
             (n <= fold_left (fun count keyword =>
                                if Str.contains keyword text
                                then (count + 1)%Z else count) keywords n
              <= n + Z.of_nat (length keywords))%Z).
  { induction keywords as [|k ks IH]; intros n; [simpl; lia|].
    cbn [fold_left length]. destruct (Str.contains k text).
    - specialize (IH (n + 1)%Z). lia.
    - specialize (IH n). lia. }
  specialize (H 0%Z). lia.
Qed.

(** The rule-based score of lines 76-84, as a function of the two counts. *)
Lemma rule_score_cases (f p : Z) :
  let score0 :=
    if (0 <? p)%Z then 0.0 + py_min (inject_Z p * 0.15) 0.4 else 0.0 in
  let score := if (0 <? f)%Z && (0 <? p)%Z then score0 + 0.3 else score0 in
  0 <= score <= 0.7
  /\ ((p <= 0)%Z -> score == 0)
  /\ (0.5 < score <-> (1 <= f)%Z /\ (2 <= p)%Z).
Proof.
  intros score0 score. unfold score, score0. clear score score0.
  destruct (0 <? p)%Z eqn:Ep.
  - apply Z.ltb_lt in Ep.
    assert (Hp : 1 <= inject_Z p)
      by (change 1 with (inject_Z 1); rewrite <- Zle_Qle; lia).
    destruct (Z.eq_dec p 1%Z) as [->|Hne].
    + destruct (0 <? f)%Z eqn:Ef; simpl; repeat split;
        try (vm_compute; discriminate); try lia;
        intros H; vm_compute in H; try discriminate; lia.
    + assert (Hp2 : 2 <= inject_Z p)
        by (change 2 with (inject_Z 2); rewrite <- Zle_Qle; lia).
      destruct (py_min_cases (inject_Z p * 0.15) 0.4) as [[H1 ->]|[H1 ->]];
        destruct (0 <? f)%Z eqn:Ef; simpl;
        try apply Z.ltb_lt in Ef; try apply Z.ltb_ge in Ef;
        repeat split; try lra; try lia; intros H; try lra; lia.
  - apply Z.ltb_ge in Ep. rewrite andb_false_r.
    repeat split; try lra; try lia; intros H; try lra; lia.
Qed.

(** X11. Without a model a page is flagged exactly when its first 1000
    characters contain at least one financial keyword and at least two of
    the listed phishing phrases; the score never exceeds 0.7, the
    confidence is 0.0, and the page is "financial" exactly from three
    financial keywords on. *)
Theorem classify_rule_based (text url : string) :
  let c := classify None text url in
  let sample := Str.lower (Str.take 1000 text) in
  let f := _count_keywords sample financial_keywords in
  let p := _count_keywords sample phishing_indicators in
  (is_phishing c = true <-> (1 <= f)%Z /\ (2 <= p)%Z)
  /\ 0 <= phishing_score c <= 0.7
  /\ confidence c = 0.0
  /\ (is_financial c = true <-> (3 <= f)%Z)
  /\ category c = (if is_financial c then "financial" else "unknown")
  /\ (0 <= f <= 17)%Z /\ (0 <= p <= 8)%Z.
Proof.
  intros c sample f p.
  pose proof (count_keywords_bounds sample financial_keywords) as Hf.
  pose proof (count_keywords_bounds sample phishing_indicators) as Hp.
  fold f in Hf. fold p in Hp. simpl in Hf, Hp.
  destruct (rule_score_cases f p) as (Hr & _ & Hflag).
  unfold c, classify, blend. fold sample. fold f. fold p.
  set (score := if (0 <? f)%Z && (0 <? p)%Z then _ else _) in *.
  assert (Hm : py_min score 1.0 = score).
  { destruct (py_min_cases score 1.0) as [[H _]|[_ H]]; [lra | exact H]. }
  destruct (3 <=? f)%Z eqn:E3; simpl; rewrite Hm, Qgtb_true;
    (split; [exact Hflag|]); (split; [exact Hr|]); (split; [reflexivity|]);
    (split; [|split; [reflexivity | split; lia]]).
  - apply Z.leb_le in E3. split; auto.
  - apply Z.leb_gt in E3. split; [discriminate | lia].
Qed.



Lemma take_take (n : nat) (s : string) :
  Str.take n (Str.take n s) = Str.take n s.
Proof.
  unfold Str.take. revert n. induction s as [|c s IH]; intros [|n]; simpl;
    try reflexivity.
  now rewrite IH.
Qed.

(** X13. Only the first 1000 characters of the page text count, in any
    letter case, and the [url] argument is not used: text beyond the
    1000th character never changes the result. *)
Theorem classify_reads_sample
        (classifier : option (string -> list string -> result ml_result))
        (text rest url url' : string) :
  classify classifier text url = classify classifier (Str.take 1000 text) url'
  /\ (1000 <= String.length text ->
      classify classifier (text ++ rest) url = classify classifier text url')%nat.
Proof.
  split.
  - unfold classify. rewrite take_take. reflexivity.
  - intros Hlen. unfold classify.
    assert (H : Str.take 1000 (text ++ rest) = Str.take 1000 text).
    { unfold Str.take. generalize dependent 1000%nat.
      induction text as [|c t IH]; intros n Hn.
      - simpl in Hn. assert (n = O) by lia. subst. destruct rest; reflexivity.
      - rewrite append_cons. destruct n as [|n]; simpl; [reflexivity|].
        rewrite IH by (simpl in Hn; lia). reflexivity. }
    rewrite H. reflexivity.
Qed.

(** A phishing phrase after one thousand other characters. *)
Lemma classify_reads_sample_witness :
  classify None (replicate_char 1000 "a" ++ "verify your account") ""
  = classify None (replicate_char 1000 "a") "".
Proof.
  apply (proj2 (classify_reads_sample None (replicate_char 1000 "a")
                  "verify your account" "" "")).
  apply Nat.leb_le. vm_compute. reflexivity.
Defined.

End WebpageFacts.

(** ** The URL detector: character counts and entropy *)

Section CounterFacts.
Import URLPhishingDetector Facts Examples.
Local Open Scope Z_scope.

Lemma frequency_increment (c c' : ascii) (l : list (ascii * Z)) :
  frequency c (increment c' l)
  = frequency c l + (if Ascii.eqb c c' then 1 else 0).
Proof.
  induction l as [|[k n] l IH]; simpl.
  - destruct (Ascii.eqb c c'); lia.
  - destruct (Ascii.eqb c' k) eqn:E; simpl.
    + apply Ascii.eqb_eq in E. subst k. destruct (Ascii.eqb c c'); lia.
    + rewrite IH. destruct (Ascii.eqb c k) eqn:Ek; [|reflexivity].
      apply Ascii.eqb_eq in Ek. subst k. rewrite Ascii.eqb_sym, E. lia.
Qed.

Lemma frequency_Counter_from (c : ascii) (text : string) (l : list (ascii * Z)) :
  frequency c (Counter_from text l) = frequency c l + Str.count c text.
Proof.
  revert l. induction text as [|c' text IH]; intros l; simpl; [lia|].
  rewrite IH, frequency_increment. lia.
Qed.

Lemma increment_keys (c k : ascii) (l : list (ascii * Z)) :
  k ∈ (increment c l).*1 <-> k = c \/ k ∈ l.*1.
Proof.
  induction l as [|[k' n] l IH]; csimpl.
  - rewrite list_elem_of_singleton, elem_of_nil. tauto.
  - destruct (Ascii.eqb c k') eqn:E; csimpl.
    + apply Ascii.eqb_eq in E. subst k'. rewrite !elem_of_cons. tauto.
    + rewrite !elem_of_cons, IH. tauto.
Qed.

Lemma increment_table (c : ascii) (l : list (ascii * Z)) :
  table l -> table (increment c l).
Proof.
  unfold table. induction l as [|[k n] l IH]; simpl; intros [Hnd Hpos].
  - split; [apply NoDup_singleton | repeat constructor; simpl; lia].
  - apply NoDup_cons in Hnd as [Hk Hnd]. apply Forall_cons in Hpos as [Hn Hpos].
    destruct (Ascii.eqb c k) eqn:E; simpl.
    + split; [apply NoDup_cons; auto | constructor; simpl in *; auto; lia].
    + destruct (IH (conj Hnd Hpos)) as [IH1 IH2]. split.
      * apply NoDup_cons. split; [|exact IH1].
        rewrite increment_keys. intros [->|H]; [|contradiction].
        rewrite Ascii.eqb_refl in E. discriminate.
      * constructor; auto.
Qed.

Lemma Counter_from_table (text : string) (l : list (ascii * Z)) :
  table l -> table (Counter_from text l).
Proof.
  revert l. induction text as [|c text IH]; intros l H; simpl; [exact H|].
  apply IH, increment_table, H.
Qed.

Lemma frequency_In (c : ascii) (n : Z) (l : list (ascii * Z)) :
  NoDup l.*1 -> In (c, n) l -> frequency c l = n.
Proof.
  induction l as [|[k m] l IH]; simpl; [contradiction|].
  intros Hnd. apply NoDup_cons in Hnd as [Hk Hnd]. intros [[= -> ->]|Hin].
  - now rewrite Ascii.eqb_refl.
  - destruct (Ascii.eqb c k) eqn:E; [|auto].
    apply Ascii.eqb_eq in E. subst k. exfalso. apply Hk.
    apply list_elem_of_fmap. exists (c, n). split; [reflexivity|].
    now apply list_elem_of_In.
Qed.

Lemma In_frequency (c : ascii) (l : list (ascii * Z)) :
  frequency c l <> 0 -> In (c, frequency c l) l.
Proof.
  induction l as [|[k m] l IH]; simpl; [congruence|].
  destruct (Ascii.eqb c k) eqn:E.
  - apply Ascii.eqb_eq in E. subst k. now left.
  - intros H. right. auto.
Qed.

Lemma total_increment (c : ascii) (l : list (ascii * Z)) :
  fold_right Z.add 0 (increment c l).*2 = fold_right Z.add 0 l.*2 + 1.
Proof.
  induction l as [|[k n] l IH]; csimpl; [reflexivity|].
  destruct (Ascii.eqb c k); csimpl in *; lia.
Qed.

Lemma total_Counter_from (text : string) (l : list (ascii * Z)) :
  fold_right Z.add 0 (Counter_from text l).*2
  = fold_right Z.add 0 l.*2 + Str.len text.
Proof.
  unfold Str.len. revert l.
  induction text as [|c text IH]; intros l; [simpl; lia|].
  cbn [Counter_from String.length]. rewrite IH, total_increment. lia.
Qed.

Lemma count_le_len (c : ascii) (s : string) : Str.count c s <= Str.len s.
Proof.
  unfold Str.len. induction s as [|c' s IH]; [simpl; lia|].
  cbn [Str.count String.length]. destruct (Ascii.eqb c c'); lia.
Qed.

(** X14. The frequency table of [_calculate_entropy] lists every character
    of the text exactly once, with its number of occurrences: the keys are
    distinct, [(c, n)] is an entry exactly when [c] occurs [n >= 1] times,
    and the counts add up to the length of the text. *)
Theorem Counter_spec (text : string) :
  NoDup (Counter text).*1
  /\ (forall c n, In (c, n) (Counter text) <-> n = Str.count c text /\ 1 <= n)
  /\ fold_right Z.add 0 (Counter text).*2 = Str.len text.
Proof.
  assert (Ht : table (Counter text)).
  { apply Counter_from_table. split; [constructor | constructor]. }
  destruct Ht as [Hnd Hpos].
  assert (Hf : forall c, frequency c (Counter text) = Str.count c text).
  { intros c. unfold Counter. rewrite frequency_Counter_from. simpl. lia. }
  split; [exact Hnd|]. split.
  - intros c n. split.
    + intros Hin. split.
      * rewrite <- Hf. symmetry. now apply frequency_In.
      * rewrite Forall_forall in Hpos. apply (Hpos (c, n)).
        now apply list_elem_of_In.
    + intros [-> Hn]. rewrite <- Hf. apply In_frequency. rewrite Hf. lia.
  - unfold Counter. rewrite total_Counter_from. simpl. lia.
Qed.

End CounterFacts.

Section EntropyFacts.
Import URLPhishingDetector Facts Examples.
Local Open Scope Q_scope.

Variable log2 : Q -> Q.

Lemma Counter_replicate (c : ascii) (n : nat) (k : Z) :
  Counter_from (replicate_char n c) [(c, k)] = [(c, (k + Z.of_nat n)%Z)].
Proof.
  revert k. induction n as [|n IH]; intros k.
  - simpl. f_equal. f_equal. lia.
  - cbn [replicate_char Counter_from increment]. rewrite Ascii.eqb_refl.
    rewrite IH. f_equal. f_equal. lia.
Qed.

Lemma entropy_step_nonneg (len : Z) (l : list (ascii * Z)) (acc : Q) :
  (forall q, 0 < q <= 1 -> log2 q <= 0) ->
  Forall (fun kv => (1 <= kv.2 <= len)%Z) l ->
  acc <= fold_left
           (fun entropy (kv : ascii * Z) =>
              entropy - (inject_Z (snd kv) / inject_Z len)
                        * log2 (inject_Z (snd kv) / inject_Z len))
           l acc.
Proof.
  intros Hlog Hl. revert acc.
  induction Hl as [|[c n] l [Hn1 Hn2] _ IH]; intros acc; simpl; [lra|].
  eapply Qle_trans; [|apply IH].
  assert (Hlen : 0 < inject_Z len)
    by (change 0 with (inject_Z 0); rewrite <- Zlt_Qlt; simpl in *; lia).
  assert (Hp : 0 < inject_Z n / inject_Z len <= 1).
  { simpl in *. split.
    - apply Qlt_shift_div_l; [exact Hlen|]. rewrite Qmult_0_l.
      change 0 with (inject_Z 0). rewrite <- Zlt_Qlt. lia.
    - apply Qle_shift_div_r; [exact Hlen|]. rewrite Qmult_1_l.
      rewrite <- Zle_Qle. lia. }
  pose proof (Hlog _ Hp). nra.
Qed.

(** X15. The entropy of the empty string is 0.0; with a [log2] that is 0
    at 1, a string made of one repeated character has entropy 0; and with
    a [log2] that is not positive on (0,1], the entropy is never
    negative. *)
Theorem entropy_bounds :
  _calculate_entropy log2 "" = 0.0
  /\ ((forall q, q == 1 -> log2 q == 0) ->
      forall c n, _calculate_entropy log2 (replicate_char (S n) c) == 0)
  /\ ((forall q, 0 < q <= 1 -> log2 q <= 0) ->
      forall text, 0 <= _calculate_entropy log2 text).
Proof.
  split; [reflexivity|]. split.
  - intros Hlog c n. unfold _calculate_entropy.
    change (String.eqb (replicate_char (S n) c) "") with false. cbv iota.
    assert (Hc : Counter (replicate_char (S n) c) = [(c, Z.of_nat (S n))]).
    { unfold Counter. cbn [replicate_char Counter_from increment].
      rewrite Counter_replicate. f_equal. f_equal. lia. }
    assert (Hl : Str.len (replicate_char (S n) c) = Z.of_nat (S n)).
    { unfold Str.len. f_equal. generalize (S n). intros m.
      induction m as [|m IH]; [reflexivity|]. simpl. now rewrite IH. }
    rewrite Hc, Hl. cbn [fold_left snd].
    assert (Hp : inject_Z (Z.of_nat (S n)) / inject_Z (Z.of_nat (S n)) == 1).
    { field. change 0 with (inject_Z 0). rewrite inject_Z_injective. lia. }
    rewrite (Hlog _ Hp), Qmult_0_r. reflexivity.
  - intros Hlog text. unfold _calculate_entropy.
    destruct (String.eqb text ""); [lra|].
    eapply Qle_trans; [|apply entropy_step_nonneg; [exact Hlog|]]; [lra|].
    apply Forall_forall. intros [c n] Hin. apply list_elem_of_In in Hin.
    apply (proj1 (proj2 (Counter_spec text))) in Hin as [-> Hn]. simpl.
    pose proof (count_le_len c text). lia.
Qed.

End EntropyFacts.

Section EntropyWitness.
Import URLPhishingDetector Facts Examples.
Local Open Scope Q_scope.

Lemma floor_log2_one (q : Q) : q == 1 -> floor_log2 q == 0.
Proof.
  destruct q as [a b]. intros Hq.
  assert (Ha : a = Z.pos b) by (unfold Qeq in Hq; simpl in Hq; lia). subst a.
  unfold floor_log2. cbn [Qnum Qden]. rewrite Z.sub_diag.
  change (2 ^ 0) with 1.
  replace (Qle_bool 1 (Z.pos b # b)) with true; [reflexivity|].
  symmetry. apply Qle_bool_iff. unfold Qle. simpl. lia.
Qed.

Lemma floor_log2_nonpos (q : Q) : 0 < q <= 1 -> floor_log2 q <= 0.
Proof.
  destruct q as [a b]. intros [H0 H1].
  assert (Ha : (0 < a <= Z.pos b)%Z) by (unfold Qlt, Qle in *; simpl in *; lia).
  assert (Hk : (Z.log2 a - Z.log2 (Z.pos b) <= 0)%Z).
  { assert (Z.log2 a <= Z.log2 (Z.pos b))%Z by (apply Z.log2_le_mono; lia). lia. }
  unfold floor_log2. cbn [Qnum Qden].
  set (k := (Z.log2 a - Z.log2 (Z.pos b))%Z) in *.
  change 0 with (inject_Z 0).
  destruct (Qle_bool (2 ^ k) (a # b)); rewrite <- Zle_Qle; lia.
Qed.

(** The three parts with [floor_log2] for [numpy.log2]. *)
Lemma entropy_bounds_witness :
  _calculate_entropy floor_log2 (replicate_char 4 "a") == 0
  /\ 0 <= _calculate_entropy floor_log2 "example.com".
Proof.
  split.
  - exact (proj1 (proj2 (entropy_bounds floor_log2)) floor_log2_one "a"%char 3%nat).
  - exact (proj2 (proj2 (entropy_bounds floor_log2)) floor_log2_nonpos "example.com").
Defined.

End EntropyWitness.

(** ** The URL detector: the rules of [analyze] *)

Section UrlRules.
Import URLPhishingDetector Facts Examples.
Local Open Scope Q_scope.

Variable float_str : Q -> string.

Lemma append_state (score points : Q) (reasons : list string) (text : string) :
  0.15 <= points <= 0.3 ->
  rule_state (score, reasons) ->
  rule_state (score + points, append reasons text).
Proof.
  unfold rule_state, append. simpl. intros Hp [H1 H2].
  rewrite length_app. simpl length.
  replace (Z.of_nat (length reasons + 1)) with (Z.of_nat (length reasons) + 1)%Z
    by lia.
  rewrite inject_Z_plus. change (inject_Z 1) with 1. split; lra.
Qed.

Lemma rule_gt_state f key bound points reason st st' :
  0.15 <= points <= 0.3 ->
  rule_gt f key bound points reason st = Ok st' ->
  rule_state st -> rule_state st'.
Proof.
  intros Hp. unfold rule_gt. destruct st as [score reasons].
  destruct (item f key) as [v|]; simpl; [|discriminate].
  destruct (gt_num v bound) as [[|]|]; simpl; try discriminate.
  - destruct (reason v); simpl; [|discriminate]. intros [= <-].
    now apply append_state.
  - now intros [= <-].
Qed.

Lemma rule_if_state f key points reason st st' :
  0.15 <= points <= 0.3 ->
  rule_if f key points reason st = Ok st' ->
  rule_state st -> rule_state st'.
Proof.
  intros Hp. unfold rule_if. destruct st as [score reasons].
  destruct (item f key) as [v|]; simpl; [|discriminate].
  destruct (truthy v); simpl.
  - destruct reason; simpl; [|discriminate]. intros [= <-].
    now apply append_state.
  - now intros [= <-].
Qed.

(** What [score_features] returns, in terms of the state the eight rules
    leave. *)
Lemma score_features_state (model : option (list fvalue -> result Q))
      (f : gmap string fvalue) (d : detection) :
  score_features float_str model f = Ok d ->
  exists score,
    rule_state (score, reasons d)
    /\ features d = f
    /\ is_phishing d = Qgtb (phishing_score d) 0.6
    /\ phishing_score d
       = py_min (match model with
                 | Some predict =>
                     match predict (_features_to_vector f) with
                     | Ok ml_score => score * 0.7 + ml_score * 0.3
                     | Raise _ => score
                     end
                 | None => score
                 end) 1.0.
Proof.
  unfold score_features.
  assert (H0 : rule_state (0.0, [])) by (split; vm_compute; discriminate).
  destruct (rule_gt f "length" _ _ _ _) as [st1|] eqn:E1; simpl; [|discriminate].
  apply rule_gt_state in E1; [|lra|assumption].
  destruct (rule_if f "has_ip" _ _ _) as [st2|] eqn:E2; simpl; [|discriminate].
  apply rule_if_state in E2; [|lra|assumption].
  destruct (rule_gt f "num_subdomains" _ _ _ _) as [st3|] eqn:E3; simpl;
    [|discriminate].
  apply rule_gt_state in E3; [|lra|assumption].
  destruct (rule_gt f "num_at" _ _ _ _) as [st4|] eqn:E4; simpl; [|discriminate].
  apply rule_gt_state in E4; [|lra|assumption].
  destruct (rule_gt f "num_hyphens" _ _ _ _) as [st5|] eqn:E5; simpl;
    [|discriminate].
  apply rule_gt_state in E5; [|lra|assumption].
  destruct (rule_if f "suspicious_tld" _ _ _) as [st6|] eqn:E6; simpl;
    [|discriminate].
  apply rule_if_state in E6; [|lra|assumption].
  destruct (rule_if f "has_punycode" _ _ _) as [st7|] eqn:E7; simpl;
    [|discriminate].
  apply rule_if_state in E7; [|lra|assumption].
  destruct (rule_gt f "domain_entropy" _ _ _ _) as [st8|] eqn:E8; simpl;
    [|discriminate].
  apply rule_gt_state in E8; [|lra|assumption].
  destruct st8 as [score reasons8]. intros [= <-]. simpl.
  exists score. auto.
Qed.

End UrlRules.

Section UrlRuleClaims.
Import URLPhishingDetector Facts Examples.
Local Open Scope Q_scope.

(** X16. Whenever [analyze] returns, and whatever model is plugged in as
    long as its probability is not negative, the score lies in [[0,1]] and
    the URL is flagged exactly when the score exceeds 0.6. *)
Theorem analyze_score_range
        (urlparse : string -> result Urllib.ParseResult) (log2 : Q -> Q)
        (float_str : Q -> string) (model : option (list fvalue -> result Q))
        (url : string) (d : detection) :
  (forall predict v q, model = Some predict -> predict v = Ok q -> 0 <= q) ->
  analyze urlparse log2 float_str model url = Ok d ->
  0 <= phishing_score d <= 1
  /\ (is_phishing d = true <-> 0.6 < phishing_score d).
Proof.
  intros Hm H. unfold analyze in H.
  apply score_features_state in H as (score & [Hlo _] & _ & Hp & Hs).
  simpl in Hlo.
  assert (Hlen : 0 <= inject_Z (Z.of_nat (length (reasons d))))
    by (change 0 with (inject_Z 0); rewrite <- Zle_Qle; lia).
  split; [|rewrite Hp; apply Qgtb_true].
  rewrite Hs. clear Hs Hp.
  destruct model as [predict|].
  - destruct (predict _) as [q|] eqn:Eq.
    + pose proof (Hm predict _ q eq_refl Eq).
      destruct (py_min_cases (score * 0.7 + q * 0.3) 1.0) as [[? ->]|[? ->]]; lra.
    + destruct (py_min_cases score 1.0) as [[? ->]|[? ->]]; lra.
  - destruct (py_min_cases score 1.0) as [[? ->]|[? ->]]; lra.
Qed.

Lemma analyze_score_range_witness :
  exists d,
    analyze (Urllib.urlparse (fun _ => Ok tt)) floor_log2 (fun _ => "") None ip_url
    = Ok d
    /\ 0 <= phishing_score d <= 1
    /\ (is_phishing d = true <-> 0.6 < phishing_score d).
Proof.
  eexists. split; [vm_compute; reflexivity|].
  apply (analyze_score_range (Urllib.urlparse (fun _ => Ok tt)) floor_log2
           (fun _ => "") None ip_url).
  - intros predict v q H. discriminate.
  - vm_compute. reflexivity.
Defined.

(** X17. Without a model, a URL scores 0 exactly when no reason is
    reported, every reason stands for 0.15 to 0.3 points, and no URL is
    flagged on fewer than three reasons. *)
Theorem reasons_and_score
        (urlparse : string -> result Urllib.ParseResult) (log2 : Q -> Q)
        (float_str : Q -> string) (url : string) (d : detection) :
  analyze urlparse log2 float_str None url = Ok d ->
  (reasons d = [] <-> phishing_score d == 0)
  /\ phishing_score d <= 0.3 * inject_Z (Z.of_nat (length (reasons d)))
  /\ (is_phishing d = true -> (3 <= length (reasons d))%nat).
Proof.
  intros H. unfold analyze in H.
  apply score_features_state in H as (score & [Hlo Hhi] & _ & Hp & Hs).
  simpl in Hlo, Hhi. rewrite Hp, Qgtb_true, Hs.
  destruct (reasons d) as [|r rs] eqn:Er.
  - cbn [length] in *. change (inject_Z (Z.of_nat 0)) with 0 in *.
    assert (Hz : score == 0) by lra.
    destruct (py_min_cases score 1.0) as [[? ->]|[? ->]].
    + exfalso. lra.
    + split; [split; [intros _; exact Hz | reflexivity]|].
      split; [lra|]. intros. exfalso. lra.
  - assert (Hlen : 1 <= inject_Z (Z.of_nat (length (r :: rs))))
      by (change 1 with (inject_Z 1); rewrite <- Zle_Qle; simpl; lia).
    destruct (py_min_cases score 1.0) as [[H1 ->]|[H1 ->]].
    + split; [split; [discriminate | intros H0; vm_compute in H0; discriminate]|].
      split; [lra|]. intros _.
      assert (Hq : 2 < inject_Z (Z.of_nat (length (r :: rs)))) by lra.
      change 2 with (inject_Z 2) in Hq. rewrite <- Zlt_Qlt in Hq. lia.
    + split; [split; [discriminate | intros H0; lra]|].
      split; [lra|]. intros H6.
      assert (Hq : 2 < inject_Z (Z.of_nat (length (r :: rs)))) by lra.
      change 2 with (inject_Z 2) in Hq. rewrite <- Zlt_Qlt in Hq. lia.
Qed.

Lemma reasons_and_score_witness :
  exists d,
    analyze (Urllib.urlparse (fun _ => Ok tt)) floor_log2 (fun _ => "") None ip_url
    = Ok d
    /\ (reasons d = [] <-> phishing_score d == 0)
    /\ phishing_score d <= 0.3 * inject_Z (Z.of_nat (length (reasons d)))
    /\ (is_phishing d = true -> (3 <= length (reasons d))%nat).
Proof.
  eexists. split; [vm_compute; reflexivity|].
  apply (reasons_and_score (Urllib.urlparse (fun _ => Ok tt)) floor_log2
           (fun _ => "") ip_url).
  vm_compute. reflexivity.
Defined.

Lemma split_pieces (c : ascii) (s : string) :
  Forall (fun piece => Str.count c piece = 0%Z) (Str.split c s).
Proof.
  induction s as [|c' s IH]; simpl; [repeat constructor|].
  destruct (Ascii.eqb c c') eqn:E; [constructor; [reflexivity | exact IH]|].
  destruct (Str.split c s) as [|piece rest]; simpl.
  - repeat constructor. simpl. now rewrite E.
  - apply Forall_cons in IH as [H1 H2]. constructor; [|exact H2].
    simpl. now rewrite E, H1.
Qed.

Lemma last_Forall {A} (P : A -> Prop) (l : list A) (dflt : A) :
  P dflt -> Forall P l -> P (List.last l dflt).
Proof.
  intros Hd H. induction H as [|x l Hx H IH]; simpl; [exact Hd|].
  destruct l; [exact Hx | exact IH].
Qed.

(** X18. For a URL that parses, [num_subdomains] is the number of dots of
    the host minus one, and 0 for a host without a dot, so it is never
    negative; the [tld] feature contains no dot. *)
Theorem subdomains_and_tld
        (urlparse : string -> result Urllib.ParseResult) (log2 : Q -> Q)
        (url : string) (parsed : Urllib.ParseResult) :
  urlparse url = Ok parsed ->
  let f := _extract_features urlparse log2 url in
  f !! "num_subdomains"
  = Some (FInt (Z.max 0 (Str.count "." (Urllib.netloc parsed) - 1)))
  /\ exists tld, f !! "tld" = Some (FStr tld) /\ Str.count "." tld = 0%Z.
Proof.
  intros H f.
  destruct (extract_features_parsed urlparse log2 url parsed H)
    as (_ & _ & Hsub & _ & _ & _ & Htld & _).
  fold f in Hsub, Htld. rewrite Hsub. split.
  - f_equal. f_equal. pose proof (count_nonneg "." (Urllib.netloc parsed)).
    destruct (Str.contains "." (Urllib.netloc parsed)) eqn:E.
    + apply contains_char in E. rewrite split_length. lia.
    + destruct (Z.eq_dec (Str.count "." (Urllib.netloc parsed)) 0%Z) as [Hz|Hz];
        [lia|].
      assert (Str.contains "." (Urllib.netloc parsed) = true)
        by (apply contains_char; lia).
      congruence.
  - eexists. split; [exact Htld|].
    destruct (Str.contains "." (Urllib.netloc parsed)); [|reflexivity].
    apply last_Forall; [reflexivity | apply split_pieces].
Qed.

Lemma subdomains_and_tld_witness :
  let f := _extract_features (Urllib.urlparse (fun _ => Ok tt)) floor_log2 ip_url in
  f !! "num_subdomains" = Some (FInt (Z.max 0 (Str.count "." "192.168.1.1" - 1)))
  /\ exists tld, f !! "tld" = Some (FStr tld) /\ Str.count "." tld = 0%Z.
Proof.
  exact (subdomains_and_tld (Urllib.urlparse (fun _ => Ok tt)) floor_log2 ip_url
           _ eq_refl).
Defined.

End UrlRuleClaims.

(** ** The endpoints *)

Section AppFacts.
Import App Examples.
Local Open Scope Z_scope.

Variable str_exn : raised -> string.

Lemma handle_status {A} (body : raised + A) :
  status (handle str_exn body)
  = match body with
    | inl _ => 500
    | inr _ => 200
    end.
Proof. destruct body; reflexivity. Qed.

(** [analyze] returns exactly for the URLs [urlparse] accepts. *)
Lemma analyze_returns_iff (urlparse : string -> result Urllib.ParseResult)
      (log2 : Q -> Q) (float_str : Q -> string) (url : string) :
  (exists d, URLPhishingDetector.analyze urlparse log2 float_str None url = Ok d)
  <-> exists parsed, urlparse url = Ok parsed.
Proof.
  split.
  - intros [d Hd]. destruct (urlparse url) as [parsed|e] eqn:E; [eauto|].
    unfold URLPhishingDetector.analyze in Hd.
    rewrite (extract_features_default urlparse log2 url e E) in Hd.
    rewrite score_default_features in Hd. discriminate.
  - intros [parsed H].
    destruct (extract_features_parsed urlparse log2 url parsed H)
      as (H1 & H2 & H3 & H4 & H5 & H6 & H7 & H8 & H9).
    edestruct (score_features_spec float_str) as (d & Hd & _);
      [exact H1 | exact H2 | exact H3 | exact H4 | exact H5 | exact H6
       | exact H7 | exact H8 | exact H9 |].
    exists d. exact Hd.
Qed.

Lemma request_signals_lookup (wt up fi om us : optfloat) :
  let s := RiskScorer.request_signals wt up fi om us in
  s !! "urlPhishing" = Some up /\ s !! "financialIntent" = Some fi
  /\ s !! "otpMisuse" = Some om /\ s !! "upiScam" = Some us.
Proof.
  unfold RiskScorer.request_signals.
  repeat split;
    repeat (rewrite lookup_insert_ne by discriminate); apply lookup_insert_eq.
Qed.

(** X19. No endpoint ever answers 503: the [HTTPException] raised for a
    detector that was not initialised is caught by the endpoint's own
    handler and answered as 500; every answer is 200 or 500. *)
Theorem endpoints_never_503
        (email_classifier : option (string -> result (string * Q)))
        (webpage_classifier
         : option (string -> list string -> result WebpageClassifier.ml_result))
        (urlparse : string -> result Urllib.ParseResult)
        (log2 : Q -> Q) (float_str : Q -> string)
        (whois : string -> result DomainChecker.whois_entry) (now : Z)
        (isoformat : Z -> string) :
  (forall detector subject body sender sender_domain,
     let r := analyze_email str_exn email_classifier detector
                            subject body sender sender_domain in
     (status r = 200 \/ status r = 500)
     /\ (detector = false -> status r = 500))
  /\ (forall detector url,
        let r := analyze_url str_exn urlparse log2 float_str detector url in
        (status r = 200 \/ status r = 500)
        /\ (detector = false -> status r = 500))
  /\ (forall detector wt up fi om us,
        let r := calculate_risk_score str_exn detector wt up fi om us in
        (status r = 200 \/ status r = 500)
        /\ (detector = false -> status r = 500))
  /\ (forall detector domain,
        let r := check_domain_age str_exn whois now isoformat detector domain in
        (status r = 200 \/ status r = 500)
        /\ (detector = false -> status r = 500))
  /\ (forall detector text url,
        let r := analyze_webpage str_exn webpage_classifier detector text url in
        (status r = 200 \/ status r = 500)
        /\ (detector = false -> status r = 500)).
Proof.
  split; [|split; [|split; [|split]]]; intros; subst r;
    unfold analyze_email, analyze_url, calculate_risk_score, check_domain_age,
      analyze_webpage;
    rewrite handle_status; destruct detector; simpl;
    try match goal with
        | |- context [match ?m with Ok _ => _ | Raise _ => _ end] => destruct m
        end;
    (split; [auto | intros; try reflexivity; discriminate]).
Qed.

(** X20. With the detectors initialised, the email, the webpage and the
    domain-age endpoints always answer 200; the URL endpoint answers 200 exactly for
    the URLs [urlparse] accepts; the risk-score endpoint answers 500
    whenever the request leaves out [financialIntent], and 200 whenever it
    gives [urlPhishing], [financialIntent], [otpMisuse] and [upiScam]. *)
Theorem endpoints_initialised
        (email_classifier : option (string -> result (string * Q)))
        (webpage_classifier
         : option (string -> list string -> result WebpageClassifier.ml_result))
        (urlparse : string -> result Urllib.ParseResult)
        (log2 : Q -> Q) (float_str : Q -> string)
        (whois : string -> result DomainChecker.whois_entry) (now : Z)
        (isoformat : Z -> string) :
  (forall subject body sender sender_domain,
     status (analyze_email str_exn email_classifier true
                           subject body sender sender_domain) = 200)
  /\ (forall domain,
        status (check_domain_age str_exn whois now isoformat true domain) = 200)
  /\ (forall text url,
        status (analyze_webpage str_exn webpage_classifier true text url) = 200)
  /\ (forall url,
        status (analyze_url str_exn urlparse log2 float_str true url) = 200
        <-> exists parsed, urlparse url = Ok parsed)
  /\ (forall wt up om us,
        status (calculate_risk_score str_exn true wt up PyNone om us) = 500)
  /\ (forall wt up fi om us,
        up <> PyNone -> fi <> PyNone -> om <> PyNone -> us <> PyNone ->
        status (calculate_risk_score str_exn true wt up fi om us) = 200).
Proof.
  split; [reflexivity|]. split; [reflexivity|]. split; [reflexivity|].
  split; [|split].
  - intros url. rewrite <- (analyze_returns_iff urlparse log2 float_str url).
    unfold analyze_url. rewrite handle_status. simpl.
    destruct (URLPhishingDetector.analyze _ _ _ _ _) as [d|e].
    + split; [eauto | reflexivity].
    + split; [discriminate | intros [d Hd]; discriminate].
  - intros wt up om us. unfold calculate_risk_score. rewrite handle_status. simpl.
    destruct (request_signals_lookup wt up PyNone om us) as (_ & Hfi & _).
    rewrite (calculate_raises_fi _ Hfi). reflexivity.
  - intros wt up fi om us Hup Hfi Hom Hus.
    unfold calculate_risk_score. rewrite handle_status. simpl.
    destruct (request_signals_lookup wt up fi om us) as (Lup & Lfi & Lom & Lus).
    destruct (calculate_returns_if (RiskScorer.request_signals wt up fi om us))
      as [v ->]; [rewrite ?Lup, ?Lfi, ?Lom, ?Lus; congruence ..|].
    reflexivity.
Qed.

End AppFacts.

Section AppWitnesses.
Import App Examples.
Local Open Scope Z_scope.

(** The risk-score endpoint before the scorer is initialised. *)
Lemma endpoints_never_503_witness :
  status (calculate_risk_score (fun _ => "") false
            PyNone (PyFloat 0.8) (PyFloat 0.6) PyNone PyNone) = 500.
Proof.
  destruct (endpoints_never_503 (fun _ => "") None None
              (Urllib.urlparse (fun _ => Ok tt)) floor_log2 (fun _ => "")
              failing_whois 0 (fun _ => "")) as (_ & _ & H & _).
  exact (proj2 (H false PyNone (PyFloat 0.8) (PyFloat 0.6) PyNone PyNone) eq_refl).
Defined.

(** A request that gives the four compared signals. *)
Lemma endpoints_initialised_witness :
  status (calculate_risk_score (fun _ => "") true
            PyNone (PyFloat 0.8) (PyFloat 0.6) (PyFloat 0.1) (PyFloat 0.1)) = 200.
Proof.
  destruct (endpoints_initialised (fun _ => "") None None
              (Urllib.urlparse (fun _ => Ok tt)) floor_log2 (fun _ => "")
              failing_whois 0 (fun _ => "")) as (_ & _ & _ & _ & _ & H).
  apply H; discriminate.
Defined.

End AppWitnesses.

(** ** A model that fails *)

Section ModelFailure.
Import Examples.
Local Open Scope Q_scope.

(** X21. A model that raises on the input it is given changes nothing: the
    email detector, the webpage classifier and the URL detector then return
    exactly what they return without a model. The same holds for a webpage
    model whose answer lacks the label "phishing or scam website". *)
Theorem failing_model_is_no_model :
  (forall pipeline subject body sender sender_domain e,
     pipeline (subject ++ " " ++ Str.take 200 body)%string = Raise e ->
     EmailPhishingDetector.analyze (Some pipeline) subject body sender sender_domain
     = EmailPhishingDetector.analyze None subject body sender sender_domain)
  /\ (forall pipeline text url,
        match pipeline (Str.lower (Str.take 1000 text))
                       WebpageClassifier.categories with
        | Raise _ => True
        | Ok ml => ~ In "phishing or scam website" (WebpageClassifier.labels ml)
        end ->
        WebpageClassifier.classify (Some pipeline) text url
        = WebpageClassifier.classify None text url)
  /\ (forall urlparse log2 float_str predict url e,
        predict (URLPhishingDetector._features_to_vector
                   (URLPhishingDetector._extract_features urlparse log2 url))
        = Raise e ->
        URLPhishingDetector.analyze urlparse log2 float_str (Some predict) url
        = URLPhishingDetector.analyze urlparse log2 float_str None url).
Proof.
  split; [|split].
  - intros pipeline subject body sender sender_domain e H.
    unfold EmailPhishingDetector.analyze. cbv zeta. rewrite H. reflexivity.
  - intros pipeline text url H.
    unfold WebpageClassifier.classify, WebpageClassifier.blend.
    destruct (pipeline _ _) as [ml|]; [|reflexivity].
    assert (Hidx : forall l i,
               ~ In "phishing or scam website" l ->
               WebpageClassifier.index_from "phishing or scam website" l i = None).
    { induction l as [|y l IH]; intros i Hl; simpl; [reflexivity|].
      destruct (String.eqb y "phishing or scam website") eqn:E.
      - apply String.eqb_eq in E. subst y. exfalso. apply Hl. now left.
      - apply IH. intros Hin. apply Hl. now right. }
    rewrite (Hidx _ _ H). reflexivity.
  - intros urlparse log2 float_str predict url e H.
    unfold URLPhishingDetector.analyze, URLPhishingDetector.score_features.
    rewrite H. reflexivity.
Qed.

(** The three parts for models that always raise. *)
Lemma failing_model_is_no_model_witness :
  EmailPhishingDetector.analyze (Some (fun _ => Raise ValueError))
                                urgent_subject "" None None
  = EmailPhishingDetector.analyze None urgent_subject "" None None
  /\ WebpageClassifier.classify (Some (fun _ _ => Raise ValueError))
                                "verify your account" ""
     = WebpageClassifier.classify None "verify your account" ""
  /\ URLPhishingDetector.analyze (Urllib.urlparse (fun _ => Ok tt)) floor_log2
                                 (fun _ => "") (Some (fun _ => Raise ValueError))
                                 ip_url
     = URLPhishingDetector.analyze (Urllib.urlparse (fun _ => Ok tt)) floor_log2
                                   (fun _ => "") None ip_url.
Proof.
  destruct failing_model_is_no_model as (H1 & H2 & H3).
  split; [|split].
  - exact (H1 (fun _ => Raise ValueError) urgent_subject "" None None
              ValueError eq_refl).
  - exact (H2 (fun _ _ => Raise ValueError) "verify your account" "" I).
  - exact (H3 (Urllib.urlparse (fun _ => Ok tt)) floor_log2 (fun _ => "")
              (fun _ => Raise ValueError) ip_url ValueError eq_refl).
Defined.

End ModelFailure.
